(** * Swarm workspace, orchestrator and agent launcher

    A shallow embedding of [swarm_orchestrator.py] and [agent_launcher.py].

    Conventions of the embedding.
    - Python values that end up in JSON files ([Dict[str, Any]], lists,
      strings, numbers) are terms of [value].  A Python [dict] keeps its
      insertion order, and the orchestrator iterates over dictionaries, so
      dictionaries are association lists updated in place ([Dict.set]).
    - The file system is a finite map from path names to file contents.
      Paths are compared as strings.  The directories made by
      [setup_workspace] exist for every [SwarmWorkspace] object (its
      constructor makes them), so only files are tracked.
    - The clock is a number of seconds.  Only [time.sleep] and
      [Popen.wait] let time pass; every other statement is instantaneous.
    - [uuid.uuid4().hex[:8]] draws from a supply carried by the world.
    - A function that may raise returns an [outcome]; when the source
      mutates state before raising, the state is returned next to it. *)

From Stdlib Require Import ZArith Ascii String List Bool Lia.
From stdpp Require Import gmap strings list fin_maps pretty.

Local Open Scope string_scope.
Local Open Scope Z_scope.

(** ** Python values *)

#[warnings="-register-all"]
Inductive value : Type :=
| VNone
| VBool (b : bool)
| VInt (z : Z)
| VFloat (mantissa exponent10 : Z)
| VStr (s : string)
| VList (l : list value)
| VDict (d : list (string * value)).

Inductive exn : Type :=
| ValueError (msg : string)
| RuntimeError (msg : string)
| KeyError (key : string)
| JSONDecodeError (path : string).

Inductive outcome (A : Type) : Type :=
| Ok (a : A)
| Raise (e : exn).

Arguments Ok {A} a.
Arguments Raise {A} e.

(** ** Insertion-ordered dictionaries *)

Module Dict.
Section Dict.
Context {V : Type}.

Fixpoint get (k : string) (d : list (string * V)) : option V :=
  match d with
  | [] => None
  | (k', v) :: d' => if String.eqb k' k then Some v else get k d'
  end.

(** [d[k] = v]: an existing key keeps its position, a new one goes last. *)
Fixpoint set (k : string) (v : V) (d : list (string * V)) : list (string * V) :=
  match d with
  | [] => [(k, v)]
  | (k', v') :: d' =>
      if String.eqb k' k then (k, v) :: d' else (k', v') :: set k v d'
  end.

Definition keys (d : list (string * V)) : list string := map fst d.
Definition values (d : list (string * V)) : list V := map snd d.
Definition items (d : list (string * V)) : list (string * V) := d.

(** [d.update(kvs)] for a list of pairs, taken in order. *)
Definition update (kvs d : list (string * V)) : list (string * V) :=
  fold_left (fun d kv => set (fst kv) (snd kv) d) kvs d.

(** The invariant of every Python dictionary: no key occurs twice. *)
Definition wf (d : list (string * V)) : Prop := NoDup (keys d).
End Dict.
End Dict.

(** ** The world outside the Python objects *)

Inductive file : Type :=
| Json (v : value)
| Garbage.

(** An operating-system process, seen from outside: the time at which it
    is over ([Popen.poll()] is [None] before that time), and how long it
    takes to exit once it has been sent SIGTERM ([None]: it ignores the
    signal). *)
Record proc : Type := mkProc {
  exits_at : Z;
  term_delay : option Z
}.

Record world : Type := mkWorld {
  files : gmap string file;
  now : Z;
  uuid_supply : nat -> string;
  uuid_drawn : nat;
  processes : gmap nat proc;
  (** what [subprocess.Popen] does for the next processes: [None] when the
      executable cannot be started, else the run time and the reaction to
      SIGTERM of the new process *)
  popen_supply : nat -> option (Z * option Z);
  spawned : nat
}.

Definition with_files (fs : gmap string file) (w : world) : world :=
  mkWorld fs (now w) (uuid_supply w) (uuid_drawn w)
          (processes w) (popen_supply w) (spawned w).

Definition with_now (t : Z) (w : world) : world :=
  mkWorld (files w) t (uuid_supply w) (uuid_drawn w)
          (processes w) (popen_supply w) (spawned w).

Definition with_uuid_drawn (n : nat) (w : world) : world :=
  mkWorld (files w) (now w) (uuid_supply w) n
          (processes w) (popen_supply w) (spawned w).

Definition with_processes (ps : gmap nat proc) (w : world) : world :=
  mkWorld (files w) (now w) (uuid_supply w) (uuid_drawn w)
          ps (popen_supply w) (spawned w).

Definition with_spawned (n : nat) (w : world) : world :=
  mkWorld (files w) (now w) (uuid_supply w) (uuid_drawn w)
          (processes w) (popen_supply w) n.

(** [open(path, 'w')] followed by [json.dump(v, f)]. *)
Definition json_dump (path : string) (v : value) (w : world) : world :=
  with_files (<[path := Json v]> (files w)) w.

(** [path.exists()] and [path.unlink()]. *)
Definition path_exists (path : string) (w : world) : bool :=
  bool_decide (is_Some (files w !! path)).

Definition unlink (path : string) (w : world) : world :=
  with_files (delete path (files w)) w.

(** [int(time.time())] *)
Definition time_time (w : world) : Z := now w.

(** [datetime.utcnow().isoformat()]: a rendering of the clock reading. *)
Definition utcnow_isoformat (w : world) : string := pretty (now w).

(** [uuid.uuid4().hex[:8]] *)
Definition uuid4_hex8 (w : world) : string * world :=
  (uuid_supply w (uuid_drawn w), with_uuid_drawn (S (uuid_drawn w)) w).

(** ** Messages and tasks *)

Record AgentMessage : Type := mkAgentMessage {
  msg_agent_id : string;
  message_type : string;
  target : string;
  timestamp : string;
  payload : list (string * value);
  correlation_id : option string;
  requires_validation : bool;
  thinking_stage : option string
}.

Record Task : Type := mkTask {
  task_id : string;
  description : string;
  assigned_to : option string;
  status : string;
  created_at : string;
  completed_at : option string;
  result : option (list (string * value));
  validation_required : bool;
  sequential_steps : list string
}.

Definition opt_str (o : option string) : value :=
  match o with Some s => VStr s | None => VNone end.

(** [dataclasses.asdict] *)
Definition asdict_message (m : AgentMessage) : value :=
  VDict [("agent_id", VStr (msg_agent_id m));
         ("message_type", VStr (message_type m));
         ("target", VStr (target m));
         ("timestamp", VStr (timestamp m));
         ("payload", VDict (payload m));
         ("correlation_id", opt_str (correlation_id m));
         ("requires_validation", VBool (requires_validation m));
         ("thinking_stage", opt_str (thinking_stage m))].

Definition asdict_task (t : Task) : value :=
  VDict [("task_id", VStr (task_id t));
         ("description", VStr (description t));
         ("assigned_to", opt_str (assigned_to t));
         ("status", VStr (status t));
         ("created_at", VStr (created_at t));
         ("completed_at", opt_str (completed_at t));
         ("result", match result t with Some r => VDict r | None => VNone end);
         ("validation_required", VBool (validation_required t));
         ("sequential_steps", VList (map VStr (sequential_steps t)))].

Definition set_status (s : string) (t : Task) : Task :=
  mkTask (task_id t) (description t) (assigned_to t) s (created_at t)
         (completed_at t) (result t) (validation_required t) (sequential_steps t).

Definition set_completed_at (c : option string) (t : Task) : Task :=
  mkTask (task_id t) (description t) (assigned_to t) (status t) (created_at t)
         c (result t) (validation_required t) (sequential_steps t).

Definition set_result (r : option (list (string * value))) (t : Task) : Task :=
  mkTask (task_id t) (description t) (assigned_to t) (status t) (created_at t)
         (completed_at t) r (validation_required t) (sequential_steps t).

(** [Task(...)] with [__post_init__]: an empty [created_at] is filled in. *)
Definition new_Task (tid descr : string) (steps : list string)
    (validation : bool) (w : world) : Task :=
  mkTask tid descr None "pending" (utcnow_isoformat w) None None validation steps.

(** ** SwarmWorkspace *)

Record SwarmWorkspace : Type := mkWorkspace { base_dir : string }.

Definition default_workspace : SwarmWorkspace := mkWorkspace "/tmp/swarm_workspace".

Definition message_file (ws : SwarmWorkspace) (agent : string) (t : Z) : string :=
  base_dir ws +:+ "/messages/" +:+ agent +:+ "_" +:+ pretty t +:+ ".json".

Definition write_message (ws : SwarmWorkspace) (message : AgentMessage)
    (w : world) : world :=
  json_dump (message_file ws (msg_agent_id message) (time_time w))
            (asdict_message message) w.

(** The record of task [tid] in the subdivision [st] of the tasks area. *)
Definition task_file (ws : SwarmWorkspace) (st tid : string) : string :=
  base_dir ws +:+ "/tasks/" +:+ st +:+ "/" +:+ tid +:+ ".json".

Definition write_task (ws : SwarmWorkspace) (task : Task) (w : world)
    : outcome unit * world :=
  if String.eqb (status task) "pending" then
    (Ok tt, json_dump (task_file ws "pending" (task_id task)) (asdict_task task) w)
  else if String.eqb (status task) "active" then
    (Ok tt, json_dump (task_file ws "active" (task_id task)) (asdict_task task) w)
  else if String.eqb (status task) "completed" then
    (Ok tt, json_dump (task_file ws "completed" (task_id task)) (asdict_task task) w)
  else
    (Raise (ValueError ("Unknown task status: " +:+ status task)), w).

(** [move_task] mutates the task object it is given, so the task comes
    back with the outcome, also when [write_task] raised. *)
Definition move_task (ws : SwarmWorkspace) (task : Task) (new_status : string)
    (w : world) : outcome unit * Task * world :=
  let current_file := task_file ws (status task) (task_id task) in
  let w1 := if path_exists current_file w then unlink current_file w else w in
  let task1 := set_status new_status task in
  let task2 :=
    if String.eqb new_status "completed"
    then set_completed_at (Some (utcnow_isoformat w1)) task1
    else task1 in
  let '(r, w2) := write_task ws task2 w1 in
  (r, task2, w2).

Definition recognized (s : string) : bool :=
  String.eqb s "pending" || String.eqb s "active" || String.eqb s "completed".

(** ** SequentialThinkAgent and SpecialistAgent *)

Record SpecialistAgent : Type := mkAgent {
  agent_id : string;
  agent_type : string;
  agent_workspace : SwarmWorkspace;
  thinking_log : list value;
  specialty : string
}.

(** [SpecialistAgent(agent_id, specialty, workspace)] *)
Definition new_SpecialistAgent (aid spec : string) (ws : SwarmWorkspace)
    : SpecialistAgent :=
  mkAgent aid spec ws [] spec.

Definition thinking_file (ws : SwarmWorkspace) (aid stage : string) : string :=
  base_dir ws +:+ "/thinking_sessions/" +:+ aid +:+ "_" +:+ stage +:+ ".json".

Definition log_thinking (agent : SpecialistAgent) (stage : string)
    (content : value) (w : world) : SpecialistAgent * world :=
  let log_entry :=
    VDict [("agent_id", VStr (agent_id agent));
           ("timestamp", VStr (utcnow_isoformat w));
           ("stage", VStr stage);
           ("content", content)] in
  let agent' :=
    mkAgent (agent_id agent) (agent_type agent) (agent_workspace agent)
            (thinking_log agent ++ [log_entry]) (specialty agent) in
  (agent', json_dump (thinking_file (agent_workspace agent) (agent_id agent) stage)
                     log_entry w).

Definition thinking_process (problem : string) : value :=
  VDict
    [("phase_1_system_mapping",
      VDict [("question",
              VStr ("What is the precise outcome needed for: " +:+ problem +:+ "?"));
             ("evidence_gathering", VList []);
             ("root_cause_analysis", VList []);
             ("component_mapping", VList [])]);
     ("phase_2_evidence_verification",
      VDict [("assumptions", VList []);
             ("verification_steps", VList []);
             ("facts_discovered", VList []);
             ("mental_model", VStr "")]);
     ("phase_3_minimal_intervention",
      VDict [("simplest_solution", VStr "");
             ("intervention_plan", VList []);
             ("verification_method", VStr "");
             ("outcome_achievement", VStr "")])].

Definition sequential_think (agent : SpecialistAgent) (problem : string)
    (w : world) : value * SpecialistAgent * world :=
  let '(agent', w') := log_thinking agent "sequential_analysis"
                                    (thinking_process problem) w in
  (thinking_process problem, agent', w').

Definition _apply_first_principles (problem : string) : value :=
  VDict [("fundamental_truths", VList []);
         ("undisputed_facts", VList []);
         ("core_components", VList []);
         ("causal_relationships", VList [])].

Definition _gather_perspectives (problem : string) : value :=
  VList [VDict [("viewpoint", VStr "systems"); ("analysis", VStr "")];
         VDict [("viewpoint", VStr "user"); ("analysis", VStr "")];
         VDict [("viewpoint", VStr "technical"); ("analysis", VStr "")];
         VDict [("viewpoint", VStr "business"); ("analysis", VStr "")]].

Definition _challenge_assumptions (problem : string) : value :=
  VList [VDict [("assumption", VStr ""); ("challenge", VStr ""); ("impact", VStr "")];
         VDict [("assumption", VStr ""); ("challenge", VStr ""); ("impact", VStr "")]].

Definition _explore_solution_space (problem : string) : value :=
  VDict [("conventional_solutions", VList []);
         ("unconventional_approaches", VList []);
         ("hybrid_solutions", VList []);
         ("risk_assessment", VDict [])].

Definition _integrate_other_insights (insights : list value) : value :=
  VDict [("synthesized_insights", VList []);
         ("conflicts_identified", VList []);
         ("emergent_patterns", VList []);
         ("collaborative_conclusions", VList [])].

(** [other_agents_insights or []] *)
Definition or_empty (o : option (list value)) : list value :=
  match o with
  | Some (x :: l) => x :: l
  | _ => []
  end.

Definition collaborative_insights (problem : string)
    (other_agents_insights : option (list value)) : value :=
  VDict [("first_principles_analysis", _apply_first_principles problem);
         ("multiple_perspectives", _gather_perspectives problem);
         ("assumption_challenging", _challenge_assumptions problem);
         ("solution_space_exploration", _explore_solution_space problem);
         ("integration_insights",
          _integrate_other_insights (or_empty other_agents_insights))].

Definition ultrathink_collaborative (agent : SpecialistAgent) (problem : string)
    (other_agents_insights : option (list value)) (w : world)
    : value * SpecialistAgent * world :=
  let insights := collaborative_insights problem other_agents_insights in
  let '(agent', w') := log_thinking agent "ultrathink_collaborative" insights w in
  (insights, agent', w').

(** [d[k]] on a value that is a dictionary. *)
Definition field (k : string) (v : value) : option value :=
  match v with
  | VDict d => Dict.get k d
  | _ => None
  end.

(** Does the integer [n] occur anywhere inside [v], as a dictionary value
    or a list element at any depth? *)
Fixpoint occurs_int (n : Z) (v : value) : bool :=
  match v with
  | VInt z => Z.eqb z n
  | VList l => existsb (occurs_int n) l
  | VDict d =>
      (fix go (d : list (string * value)) : bool :=
         match d with
         | [] => false
         | (_, x) :: d' => occurs_int n x || go d'
         end) d
  | _ => false
  end.

(** ** SwarmOrchestrator *)

Record SwarmOrchestrator : Type := mkOrchestrator {
  workspace : SwarmWorkspace;
  agents : list (string * SpecialistAgent);
  max_agents : Z;
  active_tasks : list (string * Task);
  thinking_sessions : list (string * value)
}.

(** [SwarmOrchestrator(max_agents)] *)
Definition new_SwarmOrchestrator (n : Z) : SwarmOrchestrator :=
  mkOrchestrator default_workspace [] n [] [].

Definition with_agents (a : list (string * SpecialistAgent))
    (o : SwarmOrchestrator) : SwarmOrchestrator :=
  mkOrchestrator (workspace o) a (max_agents o) (active_tasks o) (thinking_sessions o).

Definition with_active_tasks (t : list (string * Task))
    (o : SwarmOrchestrator) : SwarmOrchestrator :=
  mkOrchestrator (workspace o) (agents o) (max_agents o) t (thinking_sessions o).

Definition agent_specialties : list (string * string) :=
  [("coordinator", "Orchestrates swarm activities and task distribution");
   ("analyst", "Performs deep first-principles analysis");
   ("validator", "Sequentially validates each thinking step");
   ("explorer", "Explores alternative perspectives and solutions");
   ("synthesizer", "Integrates multi-agent insights and results")].

(** One turn of the loop of [initialize_swarm]. *)
Definition initialize_agent
    (st : SwarmOrchestrator * list (string * value) * world)
    (sd : string * string)
    : SwarmOrchestrator * list (string * value) * world :=
  let '(o, initialized_agents, w) := st in
  let '(spec, descr) := sd in
  let '(hex, w1) := uuid4_hex8 w in
  let aid := spec +:+ "_agent_" +:+ hex in
  let agent := new_SpecialistAgent aid spec (workspace o) in
  let o1 := with_agents (Dict.set aid agent (agents o)) o in
  let initialized_agents1 :=
    Dict.set aid (VDict [("specialty", VStr spec);
                         ("description", VStr descr);
                         ("status", VStr "ready")]) initialized_agents in
  let init_message :=
    mkAgentMessage aid "agent_initialized" "swarm" (utcnow_isoformat w1)
                   [("specialty", VStr spec); ("capabilities", VStr descr)]
                   None true None in
  (o1, initialized_agents1, write_message (workspace o) init_message w1).

Definition initialize_swarm (o : SwarmOrchestrator) (w : world)
    : list (string * value) * SwarmOrchestrator * world :=
  let '(o', initialized_agents, w') :=
    fold_left initialize_agent agent_specialties (o, [], w) in
  ([("status", VStr "swarm_initialized");
    ("agents", VDict initialized_agents);
    ("workspace", VStr (base_dir (workspace o)));
    ("coordination_method", VStr "file_based_communication_hub")],
   o', w').

Definition task_steps (require_ultrathink : bool) : list string :=
  ["phase_1_system_mapping";
   "phase_2_evidence_verification";
   "phase_3_minimal_intervention"]
  ++ (if require_ultrathink
      then ["collaborative_perspective_gathering";
            "assumption_challenging";
            "solution_space_exploration";
            "insight_synthesis"]
      else []).

Definition create_thinking_task (o : SwarmOrchestrator)
    (problem_description : string) (require_ultrathink : bool) (w : world)
    : outcome string * SwarmOrchestrator * world :=
  let '(hex, w1) := uuid4_hex8 w in
  let tid := "thinking_task_" +:+ hex in
  let steps := task_steps require_ultrathink in
  let task := new_Task tid problem_description steps true w1 in
  match write_task (workspace o) task w1 with
  | (Raise e, w2) => (Raise e, o, w2)
  | (Ok _, w2) =>
      let o1 := with_active_tasks (Dict.set tid task (active_tasks o)) o in
      let task_message :=
        mkAgentMessage "orchestrator" "task_created" "all_agents"
          (utcnow_isoformat w2)
          [("task_id", VStr tid);
           ("description", VStr problem_description);
           ("sequential_steps", VList (map VStr steps));
           ("require_ultrathink", VBool require_ultrathink)]
          (Some tid) true None in
      (Ok tid, o1, write_message (workspace o) task_message w2)
  end.

Definition is_coordinator (agent : SpecialistAgent) : bool :=
  String.eqb (specialty agent) "coordinator".

(** Phase 1: the loop over [self.agents.items()].  Each agent object is
    updated where it sits in the dictionary. *)
Fixpoint phase1 (problem : string) (ags : list (string * SpecialistAgent))
    (individual_results : list (string * value)) (w : world)
    : list (string * SpecialistAgent) * list (string * value) * world :=
  match ags with
  | [] => ([], individual_results, w)
  | (aid, agent) :: rest =>
      if negb (is_coordinator agent) then
        let '(r, agent', w1) := sequential_think agent problem w in
        let '(rest', res, w2) :=
          phase1 problem rest (Dict.set aid r individual_results) w1 in
        ((aid, agent') :: rest', res, w2)
      else
        let '(rest', res, w2) := phase1 problem rest individual_results w in
        ((aid, agent) :: rest', res, w2)
  end.

(** [[result for aid, result in individual_results.items() if aid != agent_id]] *)
Definition other_insights (individual_results : list (string * value))
    (aid : string) : list value :=
  map snd (List.filter (fun e => negb (String.eqb (fst e) aid))
                       (Dict.items individual_results)).

(** Phase 2.  Besides what the source computes, the loop hands back the
    arguments of every [ultrathink_collaborative] call it made, in order:
    the callee ignores its peer input, so the calls are visible nowhere
    else. *)
Fixpoint phase2 (problem : string) (ags : list (string * SpecialistAgent))
    (individual_results : list (string * value))
    (ultrathink_results : list (string * value)) (w : world)
    : list (string * SpecialistAgent) * list (string * value)
      * list (string * list value) * world :=
  match ags with
  | [] => ([], ultrathink_results, [], w)
  | (aid, agent) :: rest =>
      if negb (is_coordinator agent) then
        let peers := other_insights individual_results aid in
        let '(r, agent', w1) := ultrathink_collaborative agent problem (Some peers) w in
        let '(rest', res, calls, w2) :=
          phase2 problem rest individual_results
                 (Dict.set aid r ultrathink_results) w1 in
        ((aid, agent') :: rest', res, (aid, peers) :: calls, w2)
      else
        let '(rest', res, calls, w2) :=
          phase2 problem rest individual_results ultrathink_results w in
        ((aid, agent) :: rest', res, calls, w2)
  end.

Definition _achieve_consensus (individual collaborative : list (string * value))
    : value :=
  VDict [("consensus_level", VStr "high");
         ("agreed_points", VList []);
         ("disagreements", VList []);
         ("resolution_method", VStr "collaborative_reasoning");
         ("final_confidence", VFloat 85 (-2))].

Definition synthesizer_unavailable : value :=
  VDict [("error", VStr "Synthesizer agent not available")].

Definition execute_sequential_swarm_thinking (o : SwarmOrchestrator)
    (problem : string) (w : world)
    : outcome (list (string * value)) * SwarmOrchestrator * world :=
  let '(o1, w1) :=
    match agents o with
    | [] => let '(_, o', w') := initialize_swarm o w in (o', w')
    | _ :: _ => (o, w)
    end in
  match create_thinking_task o1 problem true w1 with
  | (Raise e, o2, w2) => (Raise e, o2, w2)
  | (Ok tid, o2, w2) =>
      let '(ags3, individual_results, w3) := phase1 problem (agents o2) [] w2 in
      let '(ags4, ultrathink_results, _, w4) :=
        phase2 problem ags3 individual_results [] w3 in
      let o4 := with_agents ags4 o2 in
      let final_synthesis :=
        match Dict.get "synthesizer_agent" (agents o4) with
        | Some synthesizer =>
            _integrate_other_insights (Dict.values ultrathink_results)
        | None => synthesizer_unavailable
        end in
      match Dict.get tid (active_tasks o4) with
      | None => (Raise (KeyError tid), o4, w4)
      | Some task =>
          let res :=
            [("individual_sequential_thinking", VDict individual_results);
             ("collaborative_ultrathink", VDict ultrathink_results);
             ("final_synthesis", final_synthesis);
             ("swarm_consensus",
              _achieve_consensus individual_results ultrathink_results)] in
          let task1 := set_result (Some res) task in
          let '(r, task2, w5) := move_task (workspace o4) task1 "completed" w4 in
          let o5 := with_active_tasks (Dict.set tid task2 (active_tasks o4)) o4 in
          match r with
          | Raise e => (Raise e, o5, w5)
          | Ok _ => (Ok res, o5, w5)
          end
      end
  end.

(** ** AgentLauncher *)

(** The [system_prompt] of a configuration is prompt text for the external
    executable; no decision of the launcher depends on it, and it is left
    out of the record. *)
Record AgentConfig : Type := mkConfig {
  cfg_description : string;
  tools : list string;
  thinking_style : string
}.

Definition _load_agent_configs : list (string * AgentConfig) :=
  [("coordinator",
    mkConfig "Orchestrates swarm activities and coordinates thinking sessions"
             ["file_operations"; "task_coordination"]
             "meta_cognitive_orchestration");
   ("analyst",
    mkConfig "Performs deep first-principles analysis and problem decomposition"
             ["system_analysis"; "first_principles_reasoning"; "evidence_verification"]
             "deep_sequential_analysis");
   ("validator",
    mkConfig "Sequentially validates each thinking step and ensures logical consistency"
             ["logical_validation"; "evidence_verification"; "quality_assurance"]
             "rigorous_validation");
   ("explorer",
    mkConfig "Explores alternative perspectives and unconventional solution approaches"
             ["perspective_analysis"; "creative_thinking"; "solution_space_mapping"]
             "divergent_exploration");
   ("synthesizer",
    mkConfig "Integrates multi-agent insights into coherent, actionable outputs"
             ["insight_integration"; "coherence_building"; "synthesis_creation"]
             "integrative_synthesis")].

(** An entry of [active_processes]; [process] is the process id behind the
    [Popen] object. *)
Record ProcessInfo : Type := mkProcessInfo {
  process : nat;
  info_agent_type : string;
  started_at : string;
  info_task : string
}.

Record AgentLauncher : Type := mkLauncher {
  workspace_dir : string;
  active_processes : gmap string ProcessInfo;
  agent_configs : list (string * AgentConfig)
}.

Definition new_AgentLauncher (dir : string) : AgentLauncher :=
  mkLauncher dir ∅ _load_agent_configs.

Definition with_active_processes (a : gmap string ProcessInfo)
    (l : AgentLauncher) : AgentLauncher :=
  mkLauncher (workspace_dir l) a (agent_configs l).

(** [time.sleep(n)] *)
Definition sleep (n : Z) (w : world) : world := with_now (now w + n) w.

(** [subprocess.Popen(cmd, ...)]: [None] when it raises. *)
Definition Popen (w : world) : option nat * world :=
  match popen_supply w (spawned w) with
  | None => (None, w)
  | Some (run_time, td) =>
      let pid := spawned w in
      (Some pid,
       with_spawned (S pid)
         (with_processes (<[pid := mkProc (now w + run_time) td]> (processes w)) w))
  end.

(** [process.poll() is None] *)
Definition alive (pid : nat) (w : world) : bool :=
  match processes w !! pid with
  | Some p => now w <? exits_at p
  | None => false
  end.

(** [process.terminate()] *)
Definition terminate (pid : nat) (w : world) : world :=
  match processes w !! pid with
  | Some p =>
      if now w <? exits_at p then
        match term_delay p with
        | Some d =>
            with_processes
              (<[pid := mkProc (Z.min (exits_at p) (now w + Z.max 0 d))
                                  (term_delay p)]> (processes w)) w
        | None => w
        end
      else w
  | None => w
  end.

(** [process.wait(timeout=t)]: [true] when the process is over within
    [t] seconds, [false] for [subprocess.TimeoutExpired]. *)
Definition wait (pid : nat) (t : Z) (w : world) : bool * world :=
  match processes w !! pid with
  | Some p =>
      if exits_at p <=? now w + t
      then (true, with_now (Z.max (now w) (exits_at p)) w)
      else (false, with_now (now w + t) w)
  | None => (true, w)
  end.

(** [process.kill()] *)
Definition kill (pid : nat) (w : world) : world :=
  match processes w !! pid with
  | Some p =>
      with_processes
        (<[pid := mkProc (Z.min (exits_at p) (now w)) (term_delay p)]>
           (processes w)) w
  | None => w
  end.

Definition activity_file (l : AgentLauncher) (aid : string) : string :=
  workspace_dir l +:+ "/coordination/agent_activity_" +:+ aid +:+ ".json".

Definition _log_agent_activity (l : AgentLauncher) (aid atype activity : string)
    (details : list (string * value)) (w : world) : world :=
  json_dump (activity_file l aid)
    (VDict [("agent_id", VStr aid);
            ("agent_type", VStr atype);
            ("timestamp", VStr (utcnow_isoformat w));
            ("activity", VStr activity);
            ("details", VDict details)]) w.

Definition launch_agent (l : AgentLauncher) (atype task_description : string)
    (w : world) : outcome string * AgentLauncher * world :=
  match Dict.get atype (agent_configs l) with
  | None => (Raise (ValueError ("Unknown agent type: " +:+ atype)), l, w)
  | Some config =>
      let aid := atype +:+ "_" +:+ pretty (time_time w) in
      match Popen w with
      | (None, w1) =>
          (Raise (RuntimeError ("Failed to launch agent " +:+ atype)), l, w1)
      | (Some pid, w1) =>
          let info := mkProcessInfo pid atype (utcnow_isoformat w1) task_description in
          let l1 := with_active_processes (<[aid := info]> (active_processes l)) l in
          (Ok aid, l1,
           _log_agent_activity l aid atype "launched"
                               [("task", VStr task_description)] w1)
      end
  end.

Definition result_file (l : AgentLauncher) (aid : string) : string :=
  workspace_dir l +:+ "/results/" +:+ aid +:+ "_result.json".

(** The [for agent_id in agent_ids] loop inside [monitor_swarm]. *)
Fixpoint poll_agents (l : AgentLauncher) (agent_ids : list string)
    (all_complete : bool) (agent_status : gmap string string)
    (swarm_results : gmap string value) (w : world)
    : outcome (bool * gmap string string * gmap string value) :=
  match agent_ids with
  | [] => Ok (all_complete, agent_status, swarm_results)
  | aid :: rest =>
      match active_processes l !! aid with
      | None => poll_agents l rest all_complete agent_status swarm_results w
      | Some info =>
          if alive (process info) w then
            poll_agents l rest false (<[aid := "running"]> agent_status)
                        swarm_results w
          else
            let agent_status1 := <[aid := "completed"]> agent_status in
            if path_exists (result_file l aid) w
               && negb (bool_decide (is_Some (swarm_results !! aid)))
            then
              match files w !! result_file l aid with
              | Some (Json v) =>
                  poll_agents l rest all_complete agent_status1
                              (<[aid := v]> swarm_results) w
              | _ => Raise (JSONDecodeError (result_file l aid))
              end
            else
              poll_agents l rest all_complete agent_status1 swarm_results w
      end
  end.

(** The [while time.time() - start_time < timeout] loop.  [None] means
    that [fuel] turns were not enough to leave the loop. *)
Fixpoint monitor_loop (fuel : nat) (l : AgentLauncher) (agent_ids : list string)
    (timeout start_time : Z) (agent_status : gmap string string)
    (swarm_results : gmap string value) (w : world)
    : option (outcome (gmap string string * gmap string value) * world) :=
  if now w - start_time <? timeout then
    match fuel with
    | O => None
    | S fuel' =>
        match poll_agents l agent_ids true agent_status swarm_results w with
        | Raise e => Some (Raise e, w)
        | Ok (all_complete, agent_status1, swarm_results1) =>
            if all_complete
            then Some (Ok (agent_status1, swarm_results1), w)
            else monitor_loop fuel' l agent_ids timeout start_time
                              agent_status1 swarm_results1 (sleep 5 w)
        end
    end
  else Some (Ok (agent_status, swarm_results), w).

Fixpoint has_char (c : ascii) (s : string) : bool :=
  match s with
  | EmptyString => false
  | String c' s' => Ascii.eqb c' c || has_char c s'
  end.

Definition has_suffix (suf s : string) : bool :=
  let n := String.length s in
  let m := String.length suf in
  (m <=? n)%nat && String.eqb (substring (n - m) m s) suf.

(** Is [path] a file of directory [dir] whose name matches [pre*suf]? *)
Definition glob_match (dir pre suf path : string) : bool :=
  let d := dir +:+ "/" in
  let name := substring (String.length d) (String.length path - String.length d) path in
  String.prefix d path
  && String.prefix pre name
  && has_suffix suf name
  && (String.length pre + String.length suf <=? String.length name)%nat
  && negb (has_char "/"%char name).

Definition sessions_of (l : AgentLauncher) (aid : string) (w : world) : list value :=
  omap (fun pf => match snd pf with Json v => Some v | Garbage => None end)
       (filter (fun pf => glob_match (workspace_dir l +:+ "/thinking_sessions")
                                     (aid +:+ "_") ".json" (fst pf) = true)
               (map_to_list (files w))).

Definition _collect_thinking_sessions (l : AgentLauncher) (agent_ids : list string)
    (w : world) : gmap string (list value) :=
  fold_left (fun acc aid => <[aid := sessions_of l aid w]> acc) agent_ids ∅.

Record MonitorResult : Type := mkMonitorResult {
  agent_status : gmap string string;
  results : gmap string value;
  collected_sessions : gmap string (list value);
  completion_time : Z
}.

(** Turns of the polling loop that any run with this timeout can take. *)
Definition monitor_fuel (timeout : Z) : nat := Z.to_nat (timeout / 5 + 1).

Definition monitor_swarm (l : AgentLauncher) (agent_ids : list string)
    (timeout : Z) (w : world) : option (outcome MonitorResult * world) :=
  let start_time := now w in
  match monitor_loop (monitor_fuel timeout) l agent_ids timeout start_time ∅ ∅ w with
  | None => None
  | Some (Raise e, w') => Some (Raise e, w')
  | Some (Ok (st, res), w') =>
      Some (Ok (mkMonitorResult st res
                  (_collect_thinking_sessions l agent_ids w')
                  (now w' - start_time)), w')
  end.

(** One turn of the loop of [cleanup_swarm]. *)
Definition cleanup_agent (st : AgentLauncher * world) (aid : string)
    : AgentLauncher * world :=
  let '(l, w) := st in
  match active_processes l !! aid with
  | None => (l, w)
  | Some info =>
      let pid := process info in
      let w1 :=
        if alive pid w then
          let '(exited, w') := wait pid 10 (terminate pid w) in
          if exited then w' else kill pid w'
        else w in
      (with_active_processes (delete aid (active_processes l)) l, w1)
  end.

Definition cleanup_swarm (l : AgentLauncher) (agent_ids : list string)
    (w : world) : AgentLauncher * world :=
  fold_left cleanup_agent agent_ids (l, w).

(** ** Concrete worlds and objects used in examples *)

Definition demo_uuid (n : nat) : string := "a1b2c3d" +:+ pretty n.

Definition demo_popen (n : nat) : option (Z * option Z) :=
  match n with
  | O => Some (100, Some 2)
  | S O => Some (3, None)
  | _ => Some (1000, None)
  end.

Definition demo_world : world :=
  mkWorld ∅ 1700000000 demo_uuid 0 ∅ demo_popen 0.

Definition demo_task (st : string) : Task :=
  mkTask "thinking_task_00c0ffee" "P1" None st "1699999999" None None true
         (task_steps true).

Definition demo_message (kind : string) : AgentMessage :=
  mkAgentMessage "orchestrator" kind "all_agents" "1700000000" [] None true None.


(** Is message [m] stored somewhere in the store? *)
Definition stored (m : AgentMessage) (w : world) : Prop :=
  exists path, files w !! path = Some (Json (asdict_message m)).

Definition demo_agent : SpecialistAgent :=
  new_SpecialistAgent "analyst_agent_a1b2c3d1" "analyst" default_workspace.

Definition integration_of (r : value) : option value :=
  field "integration_insights" r.

(** The ids of the agents that take part in the two phases, in the order
    of [self.agents]. *)
Definition noncoordinators (ags : list (string * SpecialistAgent)) : list string :=
  map fst (List.filter (fun e => negb (is_coordinator (snd e))) ags).

(** The agents whose Phase-1 results are handed to [aid] in Phase 2. *)
Definition peers_of (ags : list (string * SpecialistAgent)) (aid : string)
    : list string :=
  List.filter (fun b => negb (String.eqb b aid)) (noncoordinators ags).

Definition demo_agents : list (string * SpecialistAgent) :=
  [("coordinator_agent_a1b2c3d0",
    new_SpecialistAgent "coordinator_agent_a1b2c3d0" "coordinator" default_workspace);
   ("analyst_agent_a1b2c3d1",
    new_SpecialistAgent "analyst_agent_a1b2c3d1" "analyst" default_workspace);
   ("validator_agent_a1b2c3d2",
    new_SpecialistAgent "validator_agent_a1b2c3d2" "validator" default_workspace);
   ("explorer_agent_a1b2c3d3",
    new_SpecialistAgent "explorer_agent_a1b2c3d3" "explorer" default_workspace)].

(** One entry per agent of [ids], in order. *)
Definition results_for (f : string -> value) (ids : list string)
    : list (string * value) :=
  map (fun aid => (aid, f aid)) ids.

(** The ids that [initialize_swarm] makes: the role, then the draw. *)
Definition new_agent_id (supply : nat -> string) (spec : string) (k : nat) : string :=
  spec +:+ "_agent_" +:+ supply k.

Definition numbered_roles : list (string * nat) :=
  [("coordinator", 0); ("analyst", 1); ("validator", 2); ("explorer", 3);
   ("synthesizer", 4)]%nat.

Definition swarm_ids (supply : nat -> string) (base : nat) : list string :=
  map (fun sk => new_agent_id supply sk.1 (sk.2 + base)) numbered_roles.

(** The agent objects that a call of [initialize_swarm] makes when [base]
    draws have been taken from [supply] before. *)
Definition new_agents (ws : SwarmWorkspace) (supply : nat -> string) (base : nat)
    : list (string * SpecialistAgent) :=
  map (fun sk =>
         let aid := new_agent_id supply sk.1 (sk.2 + base) in
         (aid, new_SpecialistAgent aid sk.1 ws)) numbered_roles.

(** Boolean tests on lists of ids, for ids that are only partly known. *)
Definition differs_from_all (k : string) (l : list string) : bool :=
  forallb (fun y => negb (String.eqb k y)) l.

Fixpoint all_distinct (l : list string) : bool :=
  match l with
  | [] => true
  | k :: l' => differs_from_all k l' && all_distinct l'
  end.

(** The bundle that the driver attaches to the task. *)
Definition result_bundle (individual_results ultrathink_results : list (string * value))
    (final_synthesis : value) : list (string * value) :=
  [("individual_sequential_thinking", VDict individual_results);
   ("collaborative_ultrathink", VDict ultrathink_results);
   ("final_synthesis", final_synthesis);
   ("swarm_consensus", _achieve_consensus individual_results ultrathink_results)].

(** Ids and roles of the agents of a swarm, in order. *)
Definition roster (ags : list (string * SpecialistAgent)) : list (string * string) :=
  map (fun e => (e.1, specialty e.2)) ags.

(** A launcher with two agents launched in the same second of
    [demo_world]: an analyst that runs for 100 seconds and a validator that
    runs for 3. *)
Definition demo_launched : AgentLauncher * world :=
  let s1 := launch_agent (new_AgentLauncher "/tmp/swarm_workspace") "analyst" "P1"
                         demo_world in
  let s2 := launch_agent s1.1.2 "validator" "P1" s1.2 in
  (s2.1.2, s2.2).

(** The state of the agent [aid] as [monitor_swarm] sees it in world [w]. *)
Definition tracked (l : AgentLauncher) (aid : string) : bool :=
  bool_decide (is_Some (active_processes l !! aid)).

Definition tracked_alive (l : AgentLauncher) (w : world) (aid : string) : bool :=
  match active_processes l !! aid with
  | Some info => alive (process info) w
  | None => false
  end.

Definition tracked_over (l : AgentLauncher) (w : world) (aid : string) : bool :=
  match active_processes l !! aid with
  | Some info => negb (alive (process info) w)
  | None => false
  end.

Definition status_word (l : AgentLauncher) (w : world) (aid : string) : string :=
  if tracked_alive l w aid then "running" else "completed".

Definition result_on_disk (l : AgentLauncher) (w : world) (aid : string)
    : option value :=
  match files w !! result_file l aid with
  | Some (Json v) => Some v
  | _ => None
  end.

(** No result file of the agents [ids] is unreadable. *)
Definition results_readable (l : AgentLauncher) (ids : list string) (w : world)
    : Prop :=
  forall a, a ∈ ids -> files w !! result_file l a <> Some Garbage.

(** What [cleanup_agent] does to the world. *)
Definition stop_process (pid : nat) (w : world) : world :=
  if alive pid w then
    let st := wait pid 10 (terminate pid w) in
    if st.1 then st.2 else kill pid st.2
  else w.


(** World [w] is world [w0] at the same or a later time: same files, same
    processes. *)
Definition later_than (w0 w : world) : Prop :=
  files w = files w0 /\ processes w = processes w0 /\ now w0 <= now w.

(** Every collected result is the content of the agent's result file. *)
Definition collected_from_disk (l : AgentLauncher) (w0 : world)
    (res : gmap string value) : Prop :=
  forall x v, res !! x = Some v -> result_on_disk l w0 x = Some v.

(** The status map reports [A] as running, and every agent of [ids] that
    was over in [w0] with a readable result file as completed, with its
    result collected. *)
Definition reported (l : AgentLauncher) (ids : list string) (w0 : world)
    (A : string) (st : gmap string string) (res : gmap string value) : Prop :=
  st !! A = Some "running"
  /\ forall B v, B ∈ ids -> tracked_over l w0 B = true ->
       result_on_disk l w0 B = Some v ->
       st !! B = Some "completed" /\ res !! B = Some v.

(** ** More of the workspace: reading the pending queue *)

(** Python truthiness: [bool(v)]. *)
Definition truthy (v : value) : bool :=
  match v with
  | VNone => false
  | VBool b => b
  | VInt z => negb (z =? 0)
  | VFloat m _ => negb (m =? 0)
  | VStr s => negb (String.eqb s "")
  | VList l => match l with [] => false | _ :: _ => true end
  | VDict d => match d with [] => false | _ :: _ => true end
  end.

(** What can go wrong when a record is read back: [json.load] fails
    ([json.JSONDecodeError]) or the call of [Task] on the loaded dictionary
    does ([TypeError]). *)
Inductive load_error : Type :=
| DecodeError (path : string)
| TypeError (path : string).

Definition task_fields : list string :=
  ["task_id"; "description"; "assigned_to"; "status"; "created_at";
   "completed_at"; "result"; "validation_required"; "sequential_steps"].

(** [Task] called with the loaded dictionary as keyword arguments,
    followed by [__post_init__].  A dataclass does not
    check the types of what it is given, so the new object is the list of
    its attributes, in field order, each holding whatever value came in.
    [None]: the call raises [TypeError] (no mapping, an unknown keyword, or
    [task_id] or [description] missing). *)
Definition Task_from_kwargs (task_data : value) (w : world)
    : option (list (string * value)) :=
  match task_data with
  | VDict d =>
      if forallb (fun k => existsb (String.eqb k) task_fields) (Dict.keys d) then
        match Dict.get "task_id" d, Dict.get "description" d with
        | Some tid, Some descr =>
            let created := default (VStr "") (Dict.get "created_at" d) in
            let steps := default VNone (Dict.get "sequential_steps" d) in
            Some [("task_id", tid);
                  ("description", descr);
                  ("assigned_to", default VNone (Dict.get "assigned_to" d));
                  ("status", default (VStr "pending") (Dict.get "status" d));
                  ("created_at",
                   if truthy created then created else VStr (utcnow_isoformat w));
                  ("completed_at", default VNone (Dict.get "completed_at" d));
                  ("result", default VNone (Dict.get "result" d));
                  ("validation_required",
                   default (VBool true) (Dict.get "validation_required" d));
                  ("sequential_steps",
                   match steps with VNone => VList [] | _ => steps end)]
        | _, _ => None
        end
      else None
  | _ => None
  end.

(** [(dir).glob(pre + "*" + suf)]: the files of directory [dir] whose name
    matches, in the order in which the file system lists them. *)
Definition glob (dir pre suf : string) (w : world) : list (string * file) :=
  filter (fun pf => glob_match dir pre suf pf.1 = true) (map_to_list (files w)).

(** The loop of [get_pending_tasks]: the first record that cannot be read
    ends it. *)
Fixpoint load_tasks (entries : list (string * file)) (w : world)
    : load_error + list (list (string * value)) :=
  match entries with
  | [] => inr []
  | (path, f) :: rest =>
      match f with
      | Garbage => inl (DecodeError path)
      | Json task_data =>
          match Task_from_kwargs task_data w with
          | None => inl (TypeError path)
          | Some task =>
              match load_tasks rest w with
              | inl e => inl e
              | inr tasks => inr (task :: tasks)
              end
          end
      end
  end.

Definition get_pending_tasks (ws : SwarmWorkspace) (w : world)
    : load_error + list (list (string * value)) :=
  load_tasks (glob (base_dir ws +:+ "/tasks/pending") "" ".json" w) w.

(** The attributes of a task object, as [Task_from_kwargs] lists them. *)
Definition attributes (t : Task) : list (string * value) :=
  match asdict_task t with
  | VDict d => d
  | _ => []
  end.

(** ** More of the launcher: launching a whole swarm *)

Definition default_agent_types : list string :=
  ["coordinator"; "analyst"; "validator"; "explorer"; "synthesizer"].

(** The [for agent_type in agent_types] loop of [launch_swarm]. *)
Fixpoint launch_others (l : AgentLauncher) (task_description : string)
    (agent_types : list string) (launched_agents : list string) (w : world)
    : outcome (list string) * AgentLauncher * world :=
  match agent_types with
  | [] => (Ok launched_agents, l, w)
  | atype :: rest =>
      if negb (String.eqb atype "coordinator") then
        match launch_agent l atype task_description w with
        | (Raise e, l1, w1) => (Raise e, l1, w1)
        | (Ok aid, l1, w1) =>
            launch_others l1 task_description rest
                          (launched_agents ++ [aid])%list (sleep 1 w1)
        end
      else launch_others l task_description rest launched_agents w
  end.

Definition launch_swarm (l : AgentLauncher) (task_description : string)
    (agent_types : option (list string)) (w : world)
    : outcome (list string) * AgentLauncher * world :=
  let agent_types := default default_agent_types agent_types in
  match launch_agent l "coordinator" task_description w with
  | (Raise e, l1, w1) => (Raise e, l1, w1)
  | (Ok coordinator_id, l1, w1) =>
      launch_others l1 task_description agent_types [coordinator_id] (sleep 2 w1)
  end.

(** [get_agent_capabilities] *)
Definition get_agent_capabilities (l : AgentLauncher)
    : list (string * value) :=
  map (fun tc =>
         (tc.1, VDict [("description", VStr (cfg_description tc.2));
                       ("tools", VList (map VStr (tools tc.2)));
                       ("thinking_style", VStr (thinking_style tc.2))]))
      (agent_configs l).

(** ** More of the orchestrator: the status snapshot *)

Definition get_swarm_status (o : SwarmOrchestrator) (w : world)
    : list (string * value) :=
  [("agents",
    VDict (map (fun e => (e.1, VDict [("specialty", VStr (specialty e.2));
                                      ("status", VStr "active")]))
               (agents o)));
   ("active_tasks", VInt (Z.of_nat (length (active_tasks o))));
   ("workspace", VStr (base_dir (workspace o)));
   ("thinking_sessions",
    VInt (Z.of_nat (length (glob (base_dir (workspace o) +:+ "/thinking_sessions")
                                 "" ".json" w))))].

(** The ids that a successful [launch_swarm] returns after the
    coordinator's, when the first of these launches happens at time [t]. *)
Fixpoint expected_ids (agent_types : list string) (t : Z) : list string :=
  match agent_types with
  | [] => []
  | atype :: rest =>
      if negb (String.eqb atype "coordinator")
      then (atype +:+ "_" +:+ pretty t) :: expected_ids rest (t + 1)
      else expected_ids rest t
  end.

(** The launches that [launch_swarm] makes for these types. *)
Definition launches (agent_types : list string) : nat :=
  S (length (List.filter (fun a => negb (String.eqb a "coordinator")) agent_types)).

Definition configured (l : AgentLauncher) (atype : string) : bool :=
  match Dict.get atype (agent_configs l) with Some _ => true | None => false end.
(** * Properties *)

(** ** The workspace store *)

Lemma recognized_spec s :
  recognized s = true <-> s = "pending" \/ s = "active" \/ s = "completed".
Proof.
  unfold recognized. rewrite !orb_true_iff, !String.eqb_eq. tauto.
Qed.

Lemma recognized_false s :
  recognized s = false <-> s <> "pending" /\ s <> "active" /\ s <> "completed".
Proof.
  unfold recognized. rewrite !orb_false_iff, !String.eqb_neq. tauto.
Qed.

Lemma write_task_recognized ws task w :
  recognized (status task) = true ->
  write_task ws task w
  = (Ok tt, json_dump (task_file ws (status task) (task_id task))
                      (asdict_task task) w).
Proof.
  intros H. apply recognized_spec in H. unfold write_task.
  destruct H as [H | [H | H]]; rewrite H; reflexivity.
Qed.

Lemma write_task_unrecognized ws task w :
  recognized (status task) = false ->
  write_task ws task w
  = (Raise (ValueError ("Unknown task status: " +:+ status task)), w).
Proof.
  intros H. apply recognized_false in H. destruct H as (H1 & H2 & H3).
  unfold write_task.
  apply String.eqb_neq in H1, H2, H3. rewrite H1, H2, H3. reflexivity.
Qed.

(** C8. [write_task] raises the invalid-state error ([ValueError]) exactly
    when the status of the task is none of pending, active, completed (and
    then leaves the store as it was); for each of the three it returns and
    the store holds the record of the task at the file of that status
    subdivision named after the task id. *)
Theorem write_task_invalid_state_iff ws task w :
  ((exists msg, fst (write_task ws task w) = Raise (ValueError msg))
   <-> ~ (status task = "pending" \/ status task = "active"
          \/ status task = "completed"))
  /\ (fst (write_task ws task w) <> Ok tt -> snd (write_task ws task w) = w)
  /\ (status task = "pending" \/ status task = "active"
      \/ status task = "completed" ->
      fst (write_task ws task w) = Ok tt
      /\ files (snd (write_task ws task w))
         = <[task_file ws (status task) (task_id task) := Json (asdict_task task)]>
             (files w)
      /\ files (snd (write_task ws task w))
           !! task_file ws (status task) (task_id task)
         = Some (Json (asdict_task task))).
Proof.
  destruct (recognized (status task)) eqn:R.
  - rewrite (write_task_recognized _ _ _ R). cbn [fst snd].
    pose proof (proj1 (recognized_spec _) R) as HR.
    split; [split | split].
    + intros [msg Hm]. discriminate.
    + intros Hn. contradiction.
    + intros Hn. contradiction.
    + intros _. split; [reflexivity |]. split; [reflexivity |].
      unfold json_dump. cbn. apply lookup_insert_eq.
  - rewrite (write_task_unrecognized _ _ _ R). cbn [fst snd].
    pose proof (proj1 (recognized_false _) R) as (H1 & H2 & H3).
    split; [split | split].
    + intros _. tauto.
    + intros _. eexists. reflexivity.
    + reflexivity.
    + intros HR. exfalso. tauto.
Qed.

Lemma write_task_invalid_state_iff_witness :
  fst (write_task default_workspace (demo_task "active") demo_world) = Ok tt
  /\ files (snd (write_task default_workspace (demo_task "active") demo_world))
       !! "/tmp/swarm_workspace/tasks/active/thinking_task_00c0ffee.json"
     = Some (Json (asdict_task (demo_task "active")))
  /\ exists msg,
       fst (write_task default_workspace (demo_task "archived") demo_world)
       = Raise (ValueError msg).
Proof.
  destruct (write_task_invalid_state_iff default_workspace (demo_task "active")
              demo_world) as (_ & _ & H).
  destruct H as (H1 & _ & H3); [right; left; reflexivity |].
  split; [exact H1 |]. split; [exact H3 |].
  apply (write_task_invalid_state_iff default_workspace (demo_task "archived")
           demo_world).
  intros [H | [H | H]]; discriminate H.
Defined.

Lemma move_task_unfold ws task s w :
  move_task ws task s w
  = let current_file := task_file ws (status task) (task_id task) in
    let w1 := if path_exists current_file w then unlink current_file w else w in
    let task2 :=
      if String.eqb s "completed"
      then set_completed_at (Some (utcnow_isoformat w1)) (set_status s task)
      else set_status s task in
    (fst (write_task ws task2 w1), task2, snd (write_task ws task2 w1)).
Proof.
  unfold move_task. cbv zeta.
  destruct (write_task ws _ _) as [r w2]. reflexivity.
Qed.

(** Removing the record of the current status: the same store either way. *)
Lemma files_after_unlink path w :
  files (if path_exists path w then unlink path w else w)
  = delete path (files w).
Proof.
  unfold path_exists. case_bool_decide as E.
  - reflexivity.
  - symmetry. apply delete_id. apply eq_None_not_Some. exact E.
Qed.

Lemma now_after_unlink path w :
  now (if path_exists path w then unlink path w else w) = now w.
Proof. destruct (path_exists path w); reflexivity. Qed.

Lemma moved_task_status s task stamp :
  status (if String.eqb s "completed"
          then set_completed_at stamp (set_status s task)
          else set_status s task) = s.
Proof. destruct (String.eqb s "completed"); reflexivity. Qed.

(** C6. For a recognized status [s], [move_task] returns, leaves the task
    with status [s], and assigns the completion timestamp exactly when [s]
    is completed: moving to completed stores the current clock reading,
    moving to pending or active leaves the field as it was; so a task
    without a completion timestamp has one afterwards if and only if it
    was moved to completed. *)
Theorem move_task_completion_timestamp ws task s w :
  recognized s = true ->
  let '(r, task', w') := move_task ws task s w in
  r = Ok tt
  /\ status task' = s
  /\ (s = "completed" -> completed_at task' = Some (utcnow_isoformat w))
  /\ (s = "pending" \/ s = "active" -> completed_at task' = completed_at task)
  /\ (completed_at task' <> completed_at task -> s = "completed")
  /\ (completed_at task = None -> (is_Some (completed_at task') <-> s = "completed")).
Proof.
  intros R. rewrite move_task_unfold. cbv zeta.
  set (cur := task_file ws (status task) (task_id task)).
  set (w1 := if path_exists cur w then unlink cur w else w).
  assert (Hnow : utcnow_isoformat w1 = utcnow_isoformat w).
  { unfold utcnow_isoformat, w1. now rewrite now_after_unlink. }
  rewrite write_task_recognized by (rewrite moved_task_status; exact R).
  cbn [fst snd]. rewrite moved_task_status. rewrite Hnow.
  destruct (String.eqb s "completed") eqn:E.
  - apply String.eqb_eq in E. subst s. cbn.
    repeat split; try reflexivity; try (intros; discriminate); eauto.
    intros [H | H]; discriminate H.
  - apply String.eqb_neq in E. cbn.
    repeat split; try reflexivity; try tauto; try congruence.
    + intros [x Hx]. congruence.
Qed.

Lemma move_task_completion_timestamp_witness :
  completed_at (snd (fst (move_task default_workspace (demo_task "active")
                                    "completed" demo_world)))
  = Some "1700000000"
  /\ completed_at (snd (fst (move_task default_workspace (demo_task "pending")
                                       "active" demo_world)))
     = None.
Proof.
  pose proof (move_task_completion_timestamp default_workspace
                (demo_task "active") "completed" demo_world eq_refl) as H1.
  pose proof (move_task_completion_timestamp default_workspace
                (demo_task "pending") "active" demo_world eq_refl) as H2.
  destruct (move_task default_workspace (demo_task "active") "completed"
                      demo_world) as [[r1 t1] w1].
  destruct (move_task default_workspace (demo_task "pending") "active"
                      demo_world) as [[r2 t2] w2].
  cbn [fst snd].
  destruct H1 as (_ & _ & H1 & _). destruct H2 as (_ & _ & _ & H2 & _).
  split.
  - rewrite (H1 eq_refl). reflexivity.
  - rewrite H2 by (right; reflexivity). reflexivity.
Defined.

(** C7. For a status [s] outside pending, active, completed, [move_task]
    raises, yet the store has changed by then: the record at the task's
    former status is gone and nothing was written, so a task whose only
    record sat at its former status has no record at any status
    subdivision; the task object carries the unknown status. *)
Theorem move_task_unknown_status_loses_record ws task s w :
  recognized s = false ->
  let '(r, task', w') := move_task ws task s w in
  (exists msg, r = Raise (ValueError msg))
  /\ status task' = s
  /\ files w' = delete (task_file ws (status task) (task_id task)) (files w)
  /\ files w' !! task_file ws (status task) (task_id task) = None
  /\ (is_Some (files w !! task_file ws (status task) (task_id task)) ->
      files w' <> files w)
  /\ ((forall st, recognized st = true -> st <> status task ->
         files w !! task_file ws st (task_id task) = None) ->
      forall st, recognized st = true ->
         files w' !! task_file ws st (task_id task) = None).
Proof.
  intros R. rewrite move_task_unfold. cbv zeta.
  set (cur := task_file ws (status task) (task_id task)).
  set (w1 := if path_exists cur w then unlink cur w else w).
  rewrite write_task_unrecognized by (rewrite moved_task_status; exact R).
  cbn [fst snd]. rewrite moved_task_status.
  assert (Hf : files w1 = delete cur (files w)) by apply files_after_unlink.
  rewrite Hf.
  split; [eexists; reflexivity |].
  split; [reflexivity |].
  split; [reflexivity |].
  split; [apply lookup_delete_eq |].
  split.
  - intros [x Hx] Heq.
    assert (Hn : delete cur (files w) !! cur = None) by apply lookup_delete_eq.
    rewrite Heq, Hx in Hn. discriminate.
  - intros Honly st Hst.
    destruct (decide (task_file ws st (task_id task) = cur)) as [E | E].
    + rewrite E. apply lookup_delete_eq.
    + rewrite lookup_delete_ne by congruence.
      apply Honly; [exact Hst |].
      intros ->. apply E. reflexivity.
Qed.

Lemma move_task_unknown_status_loses_record_witness :
  let w := snd (write_task default_workspace (demo_task "active") demo_world) in
  files w !! task_file default_workspace "active" "thinking_task_00c0ffee"
  = Some (Json (asdict_task (demo_task "active")))
  /\ forall st, recognized st = true ->
       files (snd (move_task default_workspace (demo_task "active") "archived" w))
         !! task_file default_workspace st "thinking_task_00c0ffee" = None.
Proof.
  cbv zeta.
  set (w := snd (write_task default_workspace (demo_task "active") demo_world)).
  split; [apply lookup_insert_eq |].
  pose proof (move_task_unknown_status_loses_record default_workspace
                (demo_task "active") "archived" w eq_refl) as H.
  destruct (move_task default_workspace (demo_task "active") "archived" w)
    as [[r t'] w'].
  cbn [snd]. destruct H as (_ & _ & _ & _ & _ & H).
  apply H. intros st Hst Hne.
  apply recognized_spec in Hst.
  destruct Hst as [-> | [-> | ->]]; try (exfalso; apply Hne; reflexivity);
    vm_compute; reflexivity.
Defined.

(** ** Messages *)

Lemma files_write_message ws m w :
  files (write_message ws m w)
  = <[message_file ws (msg_agent_id m) (now w) := Json (asdict_message m)]> (files w).
Proof. reflexivity. Qed.


(** C3, as the claim has it, fails: two different messages of one agent
    written within the same second get the same record name, and after the
    second write the first message is stored nowhere. *)
Lemma write_message_collision_overwrites :
  let m1 := demo_message "task_created" in
  let m2 := demo_message "task_cancelled" in
  let w1 := write_message default_workspace m1 demo_world in
  let w2 := write_message default_workspace m2 w1 in
  message_file default_workspace (msg_agent_id m1) (now demo_world)
  = message_file default_workspace (msg_agent_id m2) (now w1)
  /\ stored m1 w1
  /\ stored m2 w2
  /\ ~ stored m1 w2.
Proof.
  cbv zeta. split; [reflexivity |].
  split; [eexists; apply lookup_insert_eq |].
  split; [eexists; apply lookup_insert_eq |].
  intros [path Hp]. rewrite !files_write_message in Hp.
  change (now (write_message default_workspace (demo_message "task_created")
                             demo_world)) with (now demo_world) in Hp.
  rewrite insert_insert_eq in Hp.
  apply lookup_insert_Some in Hp.
  destruct Hp as [[_ Hp] | [_ Hp]].
  - discriminate Hp.
  - change (files demo_world) with (∅ : gmap string file) in Hp.
    rewrite lookup_empty in Hp. discriminate Hp.
Qed.

(** C3, amended.  The record name of a message is made of its agent id and
    the second in which it is written, and a write replaces whatever the
    store held under that name.  After [m1] and then [m2] (written when the
    clock shows [t2]): if the names collide, the name holds [m2] and the
    store is the one that writing [m2] alone would have given; if the names
    differ, both records are there. *)
Theorem write_message_same_name_replaces ws m1 m2 t2 w :
  let n1 := message_file ws (msg_agent_id m1) (now w) in
  let n2 := message_file ws (msg_agent_id m2) t2 in
  let w1 := write_message ws m1 w in
  let w2 := write_message ws m2 (with_now t2 w1) in
  (msg_agent_id m1 = msg_agent_id m2 -> now w = t2 -> n1 = n2)
  /\ files w2 !! n2 = Some (Json (asdict_message m2))
  /\ (n1 = n2 ->
      files w2 = files (write_message ws m2 (with_now t2 w)))
  /\ (n1 <> n2 ->
      files w2 !! n1 = Some (Json (asdict_message m1))).
Proof.
  cbv zeta. rewrite !files_write_message. cbn [now with_now files].
  rewrite files_write_message.
  split; [intros -> ->; reflexivity |].
  split; [apply lookup_insert_eq |].
  split.
  - intros ->. apply insert_insert_eq.
  - intros Hne. rewrite lookup_insert_ne by congruence. apply lookup_insert_eq.
Qed.

Lemma write_message_same_name_replaces_witness :
  files (write_message default_workspace (demo_message "task_cancelled")
           (with_now 1700000000
              (write_message default_workspace (demo_message "task_created")
                             demo_world)))
  = files (write_message default_workspace (demo_message "task_cancelled")
             (with_now 1700000000 demo_world))
  /\ files (write_message default_workspace (demo_message "task_cancelled")
              (with_now 1700000001
                 (write_message default_workspace (demo_message "task_created")
                                demo_world)))
       !! message_file default_workspace "orchestrator" 1700000000
     = Some (Json (asdict_message (demo_message "task_created"))).
Proof.
  split.
  - apply (write_message_same_name_replaces default_workspace
             (demo_message "task_created") (demo_message "task_cancelled")
             1700000000 demo_world).
    reflexivity.
  - apply (write_message_same_name_replaces default_workspace
             (demo_message "task_created") (demo_message "task_cancelled")
             1700000001 demo_world).
    vm_compute. discriminate.
Defined.

(** ** The thinking engine *)



Lemma ultrathink_result agent problem peers w :
  fst (fst (ultrathink_collaborative agent problem peers w))
  = collaborative_insights problem peers.
Proof. reflexivity. Qed.

(** C4, as the claim has it, fails: with two peer results the integration
    part holds no 2 anywhere, and it is the very value returned for no peer
    result at all, so the number of peers cannot be read off it. *)
Lemma integration_does_not_echo_peer_count :
  let peers := [thinking_process "P1"; thinking_process "P1"] in
  let r2 := fst (fst (ultrathink_collaborative demo_agent "P1" (Some peers)
                                               demo_world)) in
  let r0 := fst (fst (ultrathink_collaborative demo_agent "P1" (Some [])
                                               demo_world)) in
  exists integ,
    integration_of r2 = Some integ
    /\ occurs_int (Z.of_nat (length peers)) integ = false
    /\ integration_of r0 = Some integ.
Proof.
  cbv zeta. eexists. split; [reflexivity |]. split; reflexivity.
Qed.

(** C4, amended.  Whatever the peer results, the integration part of the
    result of [ultrathink_collaborative] is the same record of four empty
    lists; it holds no number. *)
Theorem integration_ignores_peers agent problem peers w :
  integration_of (fst (fst (ultrathink_collaborative agent problem peers w)))
  = Some (VDict [("synthesized_insights", VList []);
                 ("conflicts_identified", VList []);
                 ("emergent_patterns", VList []);
                 ("collaborative_conclusions", VList [])])
  /\ forall n,
       from_option (occurs_int n) true
         (integration_of
            (fst (fst (ultrathink_collaborative agent problem peers w))))
       = false.
Proof.
  rewrite ultrathink_result. split; [reflexivity |].
  intros n. reflexivity.
Qed.

(** ** Phase 1 and Phase 2 of the orchestrator *)


Section DictFacts.
Context {V : Type}.
Implicit Types (d : list (string * V)) (k : string) (v : V).

Lemma dict_set_fresh k v d :
  k ∉ Dict.keys d -> Dict.set k v d = (d ++ [(k, v)])%list.
Proof.
  induction d as [| [k' v'] d IH]; intros Hk; [reflexivity |].
  cbn in *. apply not_elem_of_cons in Hk as [Hne Hk].
  destruct (String.eqb_spec k' k) as [-> | _]; [contradiction |].
  now rewrite IH.
Qed.

Lemma dict_get_set_eq k v d : Dict.get k (Dict.set k v d) = Some v.
Proof.
  induction d as [| [k' v'] d IH]; cbn.
  - now rewrite String.eqb_refl.
  - destruct (String.eqb_spec k' k) as [-> | Hne]; cbn.
    + now rewrite String.eqb_refl.
    + apply String.eqb_neq in Hne. now rewrite Hne.
Qed.

Lemma dict_get_set_ne k k' v d :
  k <> k' -> Dict.get k' (Dict.set k v d) = Dict.get k' d.
Proof.
  intros Hne. induction d as [| [k0 v0] d IH]; cbn.
  - apply String.eqb_neq in Hne. now rewrite Hne.
  - destruct (String.eqb_spec k0 k) as [-> | Hne0]; cbn.
    + apply String.eqb_neq in Hne. now rewrite Hne.
    + now rewrite IH.
Qed.

Lemma dict_get_elem_of k v d :
  NoDup (Dict.keys d) -> (k, v) ∈ d -> Dict.get k d = Some v.
Proof.
  induction d as [| [k' v'] d IH]; intros Hnd Hin.
  - apply elem_of_nil in Hin. contradiction.
  - cbn in *. apply NoDup_cons in Hnd as [Hk Hnd].
    apply elem_of_cons in Hin as [E | Hin].
    + injection E as -> ->. now rewrite String.eqb_refl.
    + destruct (String.eqb_spec k' k) as [-> | Hne].
      * exfalso. apply Hk. apply list_elem_of_In, in_map_iff.
        exists (k, v). split; [reflexivity |]. now apply list_elem_of_In.
      * now apply IH.
Qed.
End DictFacts.

Lemma phase1_cons problem aid agent rest acc w :
  phase1 problem ((aid, agent) :: rest) acc w
  = if negb (is_coordinator agent) then
      let st := sequential_think agent problem w in
      let rec := phase1 problem rest (Dict.set aid st.1.1 acc) st.2 in
      ((aid, st.1.2) :: rec.1.1, rec.1.2, rec.2)
    else
      let rec := phase1 problem rest acc w in
      ((aid, agent) :: rec.1.1, rec.1.2, rec.2).
Proof.
  cbn [phase1]. destruct (negb (is_coordinator agent)).
  - destruct (sequential_think agent problem w) as [[r a'] w1].
    cbv zeta. cbn [fst snd].
    destruct (phase1 problem rest (Dict.set aid r acc) w1) as [[x y] z].
    reflexivity.
  - destruct (phase1 problem rest acc w) as [[x y] z]. reflexivity.
Qed.

Lemma phase2_cons problem aid agent rest ir acc w :
  phase2 problem ((aid, agent) :: rest) ir acc w
  = if negb (is_coordinator agent) then
      let peers := other_insights ir aid in
      let st := ultrathink_collaborative agent problem (Some peers) w in
      let rec := phase2 problem rest ir (Dict.set aid st.1.1 acc) st.2 in
      ((aid, st.1.2) :: rec.1.1.1, rec.1.1.2, (aid, peers) :: rec.1.2, rec.2)
    else
      let rec := phase2 problem rest ir acc w in
      ((aid, agent) :: rec.1.1.1, rec.1.1.2, rec.1.2, rec.2).
Proof.
  cbn [phase2]. destruct (negb (is_coordinator agent)).
  - destruct (ultrathink_collaborative agent problem _ w) as [[r a'] w1].
    cbv zeta. cbn [fst snd].
    destruct (phase2 problem rest ir (Dict.set aid r acc) w1) as [[[x y] c] z].
    reflexivity.
  - destruct (phase2 problem rest ir acc w) as [[[x y] c] z]. reflexivity.
Qed.

Lemma sequential_think_result agent problem w :
  (sequential_think agent problem w).1.1 = thinking_process problem.
Proof. reflexivity. Qed.

Lemma sequential_think_specialty agent problem w :
  specialty (sequential_think agent problem w).1.2 = specialty agent.
Proof. reflexivity. Qed.

Lemma ultrathink_specialty agent problem peers w :
  specialty (ultrathink_collaborative agent problem peers w).1.2 = specialty agent.
Proof. reflexivity. Qed.


Lemma phase1_spec problem ags : forall acc w,
  (phase1 problem ags acc w).1.2
  = Dict.update (results_for (fun _ => thinking_process problem)
                             (noncoordinators ags)) acc
  /\ noncoordinators (phase1 problem ags acc w).1.1 = noncoordinators ags
  /\ map fst (phase1 problem ags acc w).1.1 = map fst ags.
Proof.
  induction ags as [| [aid agent] rest IH]; intros acc w.
  - repeat split.
  - rewrite phase1_cons. unfold noncoordinators, results_for, Dict.update in *.
    destruct (is_coordinator agent) eqn:C; cbn [negb]; cbv zeta;
      cbn [fst snd List.filter map].
    + rewrite C. cbn [negb].
      destruct (IH acc w) as (H1 & H2 & H3).
      rewrite H1, H2, H3. repeat split.
    + unfold is_coordinator in *. rewrite sequential_think_specialty, C.
      cbn [negb map fst fold_left snd].
      destruct (IH (Dict.set aid (sequential_think agent problem w).1.1 acc)
                   (sequential_think agent problem w).2) as (H1 & H2 & H3).
      rewrite H1, H2, H3. repeat split.
Qed.

Lemma phase2_spec problem ir ags : forall acc w,
  (phase2 problem ags ir acc w).1.1.2
  = Dict.update (results_for
                   (fun aid => collaborative_insights problem
                                 (Some (other_insights ir aid)))
                   (noncoordinators ags)) acc
  /\ noncoordinators (phase2 problem ags ir acc w).1.1.1 = noncoordinators ags
  /\ map fst (phase2 problem ags ir acc w).1.1.1 = map fst ags.
Proof.
  induction ags as [| [aid agent] rest IH]; intros acc w.
  - repeat split.
  - rewrite phase2_cons. unfold noncoordinators, results_for, Dict.update in *.
    destruct (is_coordinator agent) eqn:C; cbn [negb]; cbv zeta;
      cbn [fst snd List.filter map].
    + rewrite C. cbn [negb].
      destruct (IH acc w) as (H1 & H2 & H3).
      rewrite H1, H2, H3. repeat split.
    + unfold is_coordinator in *. rewrite ultrathink_specialty, C.
      cbn [negb map fst fold_left snd].
      match goal with
      | |- context [phase2 problem rest ir ?a ?x] =>
          destruct (IH a x) as (H1 & H2 & H3)
      end.
      rewrite H1, H2, H3. repeat split.
Qed.

Lemma phase2_calls problem ir ags : forall acc w,
  (phase2 problem ags ir acc w).1.2
  = map (fun aid => (aid, other_insights ir aid)) (noncoordinators ags).
Proof.
  induction ags as [| [aid agent] rest IH]; intros acc w; [reflexivity |].
  rewrite phase2_cons. unfold noncoordinators in *.
  destruct (is_coordinator agent) eqn:C; cbn [negb]; cbv zeta;
    cbn [fst snd List.filter map]; rewrite C; cbn [negb map fst].
  - apply IH.
  - f_equal. apply IH.
Qed.

Lemma dict_update_fresh {V : Type} (kvs : list (string * V)) : forall d,
  NoDup (map fst kvs) -> (forall k, k ∈ map fst kvs -> k ∉ Dict.keys d) ->
  Dict.update kvs d = (d ++ kvs)%list.
Proof.
  unfold Dict.update.
  induction kvs as [| [k v] kvs IH]; intros d Hnd Hfresh; cbn.
  - now rewrite app_nil_r.
  - cbn in Hnd. apply NoDup_cons in Hnd as [Hk Hnd].
    rewrite dict_set_fresh by (apply Hfresh; left).
    rewrite IH; [now rewrite <- app_assoc | exact Hnd |].
    intros k' Hk'. unfold Dict.keys. rewrite map_app. cbn.
    intros Hin. apply elem_of_app in Hin as [Hin | Hin].
    + apply (Hfresh k'); [now right | exact Hin].
    + apply list_elem_of_singleton in Hin. subst k'. contradiction.
Qed.

Lemma keys_results_for f ids : Dict.keys (results_for f ids) = ids.
Proof.
  unfold Dict.keys, results_for. rewrite map_map. cbn. apply map_id.
Qed.

Lemma dict_update_results f ids :
  NoDup ids -> Dict.update (results_for f ids) [] = results_for f ids.
Proof.
  intros Hnd. rewrite dict_update_fresh; [reflexivity | |].
  - fold (Dict.keys (results_for f ids)). now rewrite keys_results_for.
  - intros k _ Hin. apply elem_of_nil in Hin. contradiction.
Qed.

Lemma NoDup_noncoordinators ags :
  Dict.wf ags -> NoDup (noncoordinators ags).
Proof.
  unfold Dict.wf, Dict.keys, noncoordinators.
  induction ags as [| [aid agent] rest IH]; intros Hnd; cbn; [constructor |].
  cbn in Hnd. apply NoDup_cons in Hnd as [Hk Hnd].
  destruct (negb (is_coordinator agent)); cbn; [| now apply IH].
  apply NoDup_cons. split; [| now apply IH].
  intros Hin. apply Hk. apply list_elem_of_In in Hin. apply list_elem_of_In.
  apply in_map_iff in Hin as (e & He & Hin). apply filter_In in Hin as [Hin _].
  apply in_map_iff. now exists e.
Qed.

Lemma filter_map_fst {V : Type} (f : string -> bool) (d : list (string * V)) :
  List.filter f (map fst d) = map fst (List.filter (fun e => f (fst e)) d).
Proof.
  induction d as [| [k v] d IH]; cbn; [reflexivity |].
  destruct (f k); cbn; now rewrite IH.
Qed.

Lemma filter_out_one (a : string) (l : list string) :
  NoDup l -> a ∈ l ->
  S (length (List.filter (fun b => negb (String.eqb b a)) l)) = length l.
Proof.
  induction l as [| x l IH]; intros Hnd Hin.
  - apply elem_of_nil in Hin. contradiction.
  - apply NoDup_cons in Hnd as [Hx Hnd]. cbn.
    destruct (String.eqb_spec x a) as [-> | Hne]; cbn.
    + f_equal. clear IH Hin. induction l as [| y l IHl]; [reflexivity |].
      apply not_elem_of_cons in Hx as [Hya Hx].
      apply NoDup_cons in Hnd as [_ Hnd]. cbn.
      destruct (String.eqb_spec y a) as [-> | _]; [contradiction |].
      cbn. f_equal. now apply IHl.
    + f_equal. apply IH; [exact Hnd |].
      apply elem_of_cons in Hin as [-> | Hin]; [contradiction | exact Hin].
Qed.

Lemma Forall2_fst_snd {V : Type} (P : string -> V -> Prop) (l : list (string * V)) :
  (forall k v, (k, v) ∈ l -> P k v) -> Forall2 P (map fst l) (map snd l).
Proof.
  induction l as [| [k v] l IH]; intros H; cbn; constructor.
  - apply H. left.
  - apply IH. intros k' v' Hin. apply H. now right.
Qed.

Lemma other_insights_spec (d : list (string * value)) (a : string) :
  NoDup (Dict.keys d) ->
  Forall2 (fun b r => Dict.get b d = Some r)
          (List.filter (fun b => negb (String.eqb b a)) (Dict.keys d))
          (other_insights d a).
Proof.
  intros Hnd. unfold other_insights, Dict.keys, Dict.items.
  rewrite filter_map_fst. apply Forall2_fst_snd.
  intros k v Hin. apply dict_get_elem_of; [exact Hnd |].
  apply list_elem_of_In in Hin. apply filter_In in Hin as [Hin _].
  now apply list_elem_of_In.
Qed.

Lemma phase1_results problem ags w :
  Dict.wf ags ->
  (phase1 problem ags [] w).1.2
  = results_for (fun _ => thinking_process problem) (noncoordinators ags).
Proof.
  intros Hwf. destruct (phase1_spec problem ags [] w) as (H & _).
  rewrite H. apply dict_update_results. now apply NoDup_noncoordinators.
Qed.



(** ** The swarm of the orchestrator *)

Lemma differs_from_all_spec k l : differs_from_all k l = true -> k ∉ l.
Proof.
  unfold differs_from_all. intros H Hin.
  apply list_elem_of_In in Hin.
  rewrite forallb_forall in H. specialize (H k Hin).
  now rewrite String.eqb_refl in H.
Qed.

Lemma all_distinct_NoDup l : all_distinct l = true -> NoDup l.
Proof.
  induction l as [| k l IH]; cbn; intros H; [constructor |].
  apply andb_true_iff in H as [H1 H2].
  apply NoDup_cons. split; [now apply differs_from_all_spec | now apply IH].
Qed.

Section DictUpdate.
Context {V : Type}.
Implicit Types (d kvs : list (string * V)) (k : string) (v : V).

Lemma dict_get_None k d : k ∉ Dict.keys d -> Dict.get k d = None.
Proof.
  induction d as [| [k' v'] d IH]; intros Hk; [reflexivity |].
  cbn in *. apply not_elem_of_cons in Hk as [Hne Hk].
  destruct (String.eqb_spec k' k) as [-> | _]; [contradiction | now apply IH].
Qed.

Lemma dict_set_keeps k k' v d :
  is_Some (Dict.get k' d) -> is_Some (Dict.get k' (Dict.set k v d)).
Proof.
  intros H. destruct (decide (k = k')) as [-> | Hne].
  - rewrite dict_get_set_eq. eauto.
  - now rewrite dict_get_set_ne.
Qed.

Lemma dict_update_keeps kvs : forall d k,
  is_Some (Dict.get k d) -> is_Some (Dict.get k (Dict.update kvs d)).
Proof.
  unfold Dict.update.
  induction kvs as [| [k0 v0] kvs IH]; intros d k H; cbn; [exact H |].
  apply IH. now apply dict_set_keeps.
Qed.

Lemma dict_update_adds kvs : forall d k,
  k ∈ map fst kvs -> is_Some (Dict.get k (Dict.update kvs d)).
Proof.
  induction kvs as [| [k0 v0] kvs IH]; intros d k Hin; cbn in Hin.
  - apply elem_of_nil in Hin. contradiction.
  - apply elem_of_cons in Hin as [-> | Hin].
    + change (Dict.update ((k0, v0) :: kvs) d)
        with (Dict.update kvs (Dict.set k0 v0 d)).
      apply dict_update_keeps. rewrite dict_get_set_eq. eauto.
    + now apply IH.
Qed.

Lemma dict_get_app_l k v d kvs :
  Dict.get k d = Some v -> Dict.get k (d ++ kvs)%list = Some v.
Proof.
  induction d as [| [k' v'] d IH]; intros H; [discriminate |].
  cbn in *. destruct (String.eqb k' k); [exact H | now apply IH].
Qed.
End DictUpdate.

Lemma initialize_swarm_agents o w :
  agents (initialize_swarm o w).1.2
  = Dict.update (new_agents (workspace o) (uuid_supply w) (uuid_drawn w))
                (agents o).
Proof. reflexivity. Qed.

Lemma initialize_swarm_world o w :
  uuid_drawn (initialize_swarm o w).2 = (5 + uuid_drawn w)%nat
  /\ uuid_supply (initialize_swarm o w).2 = uuid_supply w
  /\ now (initialize_swarm o w).2 = now w
  /\ workspace (initialize_swarm o w).1.2 = workspace o
  /\ active_tasks (initialize_swarm o w).1.2 = active_tasks o.
Proof. repeat split. Qed.

Lemma initialize_swarm_returned o w :
  exists ia,
    Dict.get "agents" (initialize_swarm o w).1.1 = Some (VDict ia)
    /\ Dict.keys ia = swarm_ids (uuid_supply w) (uuid_drawn w).
Proof. eexists. split; reflexivity. Qed.

Lemma keys_new_agents ws supply base :
  map fst (new_agents ws supply base) = swarm_ids supply base.
Proof. reflexivity. Qed.

Lemma swarm_ids_distinct supply base : NoDup (swarm_ids supply base).
Proof. apply all_distinct_NoDup. reflexivity. Qed.

(** A swarm made by a fresh orchestrator: one agent per role. *)
Lemma fresh_swarm n w :
  agents (initialize_swarm (new_SwarmOrchestrator n) w).1.2
  = new_agents default_workspace (uuid_supply w) (uuid_drawn w).
Proof.
  rewrite initialize_swarm_agents. apply dict_update_fresh.
  - rewrite keys_new_agents. apply swarm_ids_distinct.
  - intros k _ Hin. apply elem_of_nil in Hin. contradiction.
Qed.

(** C2, as the claim has it, fails: after a second call the orchestrator
    holds ten agents, the five of the first call among them. *)
Lemma initialize_swarm_twice_keeps_old_agents :
  let s1 := initialize_swarm (new_SwarmOrchestrator 5) demo_world in
  let s2 := initialize_swarm s1.1.2 s1.2 in
  length (agents s1.1.2) = 5%nat
  /\ length (agents s2.1.2) = 10%nat
  /\ Dict.keys (agents s2.1.2)
     = ["coordinator_agent_a1b2c3d0"; "analyst_agent_a1b2c3d1";
        "validator_agent_a1b2c3d2"; "explorer_agent_a1b2c3d3";
        "synthesizer_agent_a1b2c3d4"; "coordinator_agent_a1b2c3d5";
        "analyst_agent_a1b2c3d6"; "validator_agent_a1b2c3d7";
        "explorer_agent_a1b2c3d8"; "synthesizer_agent_a1b2c3d9"].
Proof. cbv zeta. split; [| split]; vm_compute; reflexivity. Qed.

(** C2, amended.  A call of [initialize_swarm] adds its five new agents,
    one per role, to the agents the orchestrator holds already; none is
    dropped.  What the call returns lists its own five agents only.  After
    two calls on a new orchestrator every id of the first call and every id
    of the second is held, and when each role draws a different suffix in
    the second call the orchestrator holds ten agents: the five of the
    first call, as they were, followed by the five of the second. *)
Theorem initialize_swarm_twice_accumulates n w :
  let s1 := initialize_swarm (new_SwarmOrchestrator n) w in
  let s2 := initialize_swarm s1.1.2 s1.2 in
  let ids1 := swarm_ids (uuid_supply w) (uuid_drawn w) in
  let ids2 := swarm_ids (uuid_supply w) (5 + uuid_drawn w) in
  Dict.keys (agents s1.1.2) = ids1
  /\ map (fun e => specialty e.2) (agents s1.1.2) = map fst agent_specialties
  /\ (exists ia, Dict.get "agents" s2.1.1 = Some (VDict ia) /\ Dict.keys ia = ids2)
  /\ (forall aid, aid ∈ ids1 -> is_Some (Dict.get aid (agents s2.1.2)))
  /\ (forall aid, aid ∈ ids2 -> is_Some (Dict.get aid (agents s2.1.2)))
  /\ ((forall k, (k < 5)%nat ->
         uuid_supply w (k + uuid_drawn w)%nat
         <> uuid_supply w (k + 5 + uuid_drawn w)%nat) ->
      Dict.keys (agents s2.1.2) = (ids1 ++ ids2)%list
      /\ length (agents s2.1.2) = 10%nat
      /\ forall aid a, Dict.get aid (agents s1.1.2) = Some a ->
                       Dict.get aid (agents s2.1.2) = Some a).
Proof.
  cbv zeta.
  set (s1 := initialize_swarm (new_SwarmOrchestrator n) w).
  assert (H1 : agents s1.1.2
               = new_agents default_workspace (uuid_supply w) (uuid_drawn w))
    by apply fresh_swarm.
  assert (H2 : agents (initialize_swarm s1.1.2 s1.2).1.2
               = Dict.update (new_agents default_workspace (uuid_supply w)
                                         (5 + uuid_drawn w))
                             (agents s1.1.2))
    by apply initialize_swarm_agents.
  rewrite H2, H1.
  split; [reflexivity |]. split; [reflexivity |].
  split; [apply (initialize_swarm_returned s1.1.2 s1.2) |].
  split.
  { intros aid Hin. apply dict_update_keeps.
    destruct (Dict.get aid (new_agents default_workspace (uuid_supply w)
                                       (uuid_drawn w))) eqn:E; [eauto |].
    exfalso. revert E. rewrite <- keys_new_agents with (ws := default_workspace) in Hin.
    clear -Hin. induction (new_agents _ _ _) as [| [k v] l IH]; cbn in *.
    - apply elem_of_nil in Hin. contradiction.
    - apply elem_of_cons in Hin as [-> | Hin].
      + now rewrite String.eqb_refl.
      + destruct (String.eqb k aid); [discriminate | now apply IH]. }
  split.
  { intros aid Hin. apply dict_update_adds. now rewrite keys_new_agents. }
  intros Hdraw.
  assert (Hfresh : Dict.update (new_agents default_workspace (uuid_supply w)
                                           (5 + uuid_drawn w))
                     (new_agents default_workspace (uuid_supply w) (uuid_drawn w))
                   = (new_agents default_workspace (uuid_supply w) (uuid_drawn w)
                      ++ new_agents default_workspace (uuid_supply w)
                                    (5 + uuid_drawn w))%list).
  { apply dict_update_fresh.
    - rewrite keys_new_agents. apply swarm_ids_distinct.
    - intros k Hk. apply differs_from_all_spec.
      rewrite keys_new_agents in Hk.
      pose proof (Hdraw 0%nat ltac:(lia)) as D0.
      pose proof (Hdraw 1%nat ltac:(lia)) as D1.
      pose proof (Hdraw 2%nat ltac:(lia)) as D2.
      pose proof (Hdraw 3%nat ltac:(lia)) as D3.
      pose proof (Hdraw 4%nat ltac:(lia)) as D4.
      apply String.eqb_neq in D0, D1, D2, D3, D4.
      rewrite String.eqb_sym in D0, D1, D2, D3, D4.
      cbn in D0, D1, D2, D3, D4.
      unfold swarm_ids, numbered_roles in Hk. cbn [map fst snd] in Hk.
      repeat (apply elem_of_cons in Hk as [-> | Hk]);
        try (apply elem_of_nil in Hk; contradiction);
        cbv [differs_from_all Dict.keys new_agents numbered_roles map fst snd
             forallb new_agent_id String.append Nat.add];
        cbn [String.eqb Ascii.eqb Bool.eqb negb andb];
        rewrite ?D0, ?D1, ?D2, ?D3, ?D4; reflexivity. }
  rewrite Hfresh.
  split; [unfold Dict.keys; rewrite map_app; reflexivity |].
  split; [reflexivity |].
  intros aid a Ha. now apply dict_get_app_l.
Qed.

Lemma initialize_swarm_twice_accumulates_witness :
  let s1 := initialize_swarm (new_SwarmOrchestrator 5) demo_world in
  let s2 := initialize_swarm s1.1.2 s1.2 in
  Dict.keys (agents s2.1.2)
  = (swarm_ids demo_uuid 0 ++ swarm_ids demo_uuid 5)%list
  /\ length (agents s2.1.2) = 10%nat.
Proof.
  cbv zeta.
  destruct (initialize_swarm_twice_accumulates 5 demo_world)
    as (_ & _ & _ & _ & _ & H).
  destruct H as (K & L & _).
  - intros k Hk. cbn [uuid_supply uuid_drawn demo_world].
    destruct k as [| [| [| [| [| k]]]]]; try (vm_compute; discriminate). lia.
  - split; [exact K | exact L].
Defined.

(** ** The end-to-end driver *)

Lemma create_thinking_task_eq o problem b w :
  let tid := "thinking_task_" +:+ uuid_supply w (uuid_drawn w) in
  let task := new_Task tid problem (task_steps b) true w in
  exists w',
    create_thinking_task o problem b w
    = (Ok tid, with_active_tasks (Dict.set tid task (active_tasks o)) o, w')
    /\ now w' = now w
    /\ uuid_supply w' = uuid_supply w.
Proof.
  cbv zeta. unfold create_thinking_task. cbn [uuid4_hex8].
  rewrite write_task_recognized by reflexivity.
  eexists. split; [reflexivity |]. split; reflexivity.
Qed.

Lemma move_task_returns ws task s w :
  recognized s = true -> (move_task ws task s w).1.1 = Ok tt.
Proof.
  intros R. rewrite move_task_unfold. cbv zeta. cbn [fst].
  now rewrite write_task_recognized by (rewrite moved_task_status; exact R).
Qed.

Lemma move_task_completed ws task w :
  let mv := move_task ws task "completed" w in
  status mv.1.2 = "completed"
  /\ completed_at mv.1.2 = Some (utcnow_isoformat w)
  /\ result mv.1.2 = result task
  /\ files mv.2 !! task_file ws "completed" (task_id task)
     = Some (Json (asdict_task mv.1.2)).
Proof.
  cbv zeta. rewrite move_task_unfold. cbv zeta. cbn [String.eqb Ascii.eqb Bool.eqb].
  rewrite write_task_recognized by reflexivity.
  cbn [fst snd status completed_at result set_completed_at set_status task_id].
  split; [reflexivity |].
  split; [unfold utcnow_isoformat; now rewrite now_after_unlink |].
  split; [reflexivity |].
  unfold json_dump. cbn [files with_files]. apply lookup_insert_eq.
Qed.

Lemma execute_with_agents o problem w :
  agents o <> [] ->
  let tid := "thinking_task_" +:+ uuid_supply w (uuid_drawn w) in
  let c := create_thinking_task o problem true w in
  let p1 := phase1 problem (agents o) [] c.2 in
  let p2 := phase2 problem p1.1.1 p1.1.2 [] p1.2 in
  let final_synthesis :=
    match Dict.get "synthesizer_agent" p2.1.1.1 with
    | Some _ => _integrate_other_insights (Dict.values p2.1.1.2)
    | None => synthesizer_unavailable
    end in
  let res := result_bundle p1.1.2 p2.1.1.2 final_synthesis in
  let task := new_Task tid problem (task_steps true) true w in
  let mv := move_task (workspace o) (set_result (Some res) task) "completed" p2.2 in
  (execute_sequential_swarm_thinking o problem w).1.1 = Ok res
  /\ agents (execute_sequential_swarm_thinking o problem w).1.2 = p2.1.1.1
  /\ Dict.get tid (active_tasks (execute_sequential_swarm_thinking o problem w).1.2)
     = Some mv.1.2
  /\ (execute_sequential_swarm_thinking o problem w).2 = mv.2
  /\ now p2.2 = now w.
Proof.
  intros Hne. cbv zeta. unfold result_bundle.
  destruct (create_thinking_task_eq o problem true w) as (w' & E & Hnow & _).
  cbv zeta in E.
  unfold execute_sequential_swarm_thinking.
  destruct (agents o) as [| a0 l0] eqn:Hags; [contradiction |].
  rewrite E. cbn [fst snd agents with_active_tasks].
  rewrite Hags.
  destruct (phase1 problem (a0 :: l0) [] w') as [[ags3 ir] w3] eqn:P1.
  cbn [fst snd].
  destruct (phase2 problem ags3 ir [] w3) as [[[ags4 ur] calls] w4] eqn:P2.
  cbn [fst snd agents with_agents active_tasks with_active_tasks workspace].
  rewrite dict_get_set_eq.
  set (res := [("individual_sequential_thinking", VDict ir); _; _; _]).
  set (task1 := set_result (Some res) _).
  pose proof (move_task_returns (workspace o) task1 "completed" w4 eq_refl) as Hr.
  destruct (move_task (workspace o) task1 "completed" w4) as [[r t2] w5].
  cbn [fst snd] in *. subst r.
  cbn [fst snd agents with_agents active_tasks with_active_tasks].
  rewrite dict_get_set_eq.
  split; [reflexivity |]. split; [reflexivity |].
  split; [reflexivity |]. split; [reflexivity |].
  (* the clock does not move during the phases *)
  assert (H1 : forall ags acc x, now (phase1 problem ags acc x).2 = now x).
  { induction ags as [| [k a] ags IH]; intros acc x; [reflexivity |].
    rewrite phase1_cons. destruct (negb (is_coordinator a)); cbv zeta; cbn [snd].
    - now rewrite IH.
    - apply IH. }
  assert (H2 : forall ags acc x, now (phase2 problem ags ir acc x).2 = now x).
  { induction ags as [| [k a] ags IH]; intros acc x; [reflexivity |].
    rewrite phase2_cons. destruct (negb (is_coordinator a)); cbv zeta; cbn [snd].
    - now rewrite IH.
    - apply IH. }
  specialize (H1 (a0 :: l0) [] w'). rewrite P1 in H1.
  specialize (H2 ags3 [] w3). rewrite P2 in H2. cbn [snd] in *.
  congruence.
Qed.

Lemma phase1_roster problem ags : forall acc w,
  roster (phase1 problem ags acc w).1.1 = roster ags.
Proof.
  induction ags as [| [aid agent] rest IH]; intros acc w; [reflexivity |].
  rewrite phase1_cons. destruct (negb (is_coordinator agent)); cbv zeta;
    cbn [fst snd roster map]; fold (roster rest); unfold roster in IH |- *;
    now rewrite IH.
Qed.

Lemma phase2_roster problem ir ags : forall acc w,
  roster (phase2 problem ags ir acc w).1.1.1 = roster ags.
Proof.
  induction ags as [| [aid agent] rest IH]; intros acc w; [reflexivity |].
  rewrite phase2_cons. destruct (negb (is_coordinator agent)); cbv zeta;
    cbn [fst snd roster map]; unfold roster in IH |- *; now rewrite IH.
Qed.

Lemma keys_roster ags : map fst (roster ags) = Dict.keys ags.
Proof. unfold roster, Dict.keys. rewrite map_map. reflexivity. Qed.

(** On a new orchestrator the driver makes the swarm itself, so a run on a
    new orchestrator is a run on a freshly initialized swarm. *)
Lemma execute_initializes_first n problem w :
  execute_sequential_swarm_thinking (new_SwarmOrchestrator n) problem w
  = execute_sequential_swarm_thinking
      (initialize_swarm (new_SwarmOrchestrator n) w).1.2 problem
      (initialize_swarm (new_SwarmOrchestrator n) w).2.
Proof.
  set (s1 := initialize_swarm (new_SwarmOrchestrator n) w).
  assert (H : agents s1.1.2
              = new_agents default_workspace (uuid_supply w) (uuid_drawn w))
    by apply fresh_swarm.
  unfold execute_sequential_swarm_thinking at 2. rewrite H.
  unfold execute_sequential_swarm_thinking.
  cbn [agents new_SwarmOrchestrator new_agents numbered_roles map].
  fold s1. destruct s1 as [[r o1] w1]. reflexivity.
Qed.

(** C1.  What the code does on a freshly initialized five-role swarm.  The
    driver returns; the task it made is held as completed, with the clock
    reading as completion timestamp and the bundle as result, and its
    record is in the completed subdivision; both
    [individual_sequential_thinking] and [collaborative_ultrathink] are
    keyed by the ids of the analyst, validator, explorer and synthesizer
    agents.  But [final_synthesis] is the "not available" marker although
    the swarm has an agent of role synthesizer: the driver looks the agent
    up under the key "synthesizer_agent", and every id of the swarm ends in
    a drawn suffix. *)
Theorem execute_fresh_swarm_synthesizer_not_found n problem w :
  let s1 := initialize_swarm (new_SwarmOrchestrator n) w in
  let run := execute_sequential_swarm_thinking s1.1.2 problem s1.2 in
  let ids := swarm_ids (uuid_supply w) (uuid_drawn w) in
  let tid := "thinking_task_" +:+ uuid_supply w (5 + uuid_drawn w)%nat in
  exists res task ind col,
    run.1.1 = Ok res
    /\ Dict.get tid (active_tasks run.1.2) = Some task
    /\ files run.2 !! task_file default_workspace "completed" tid
       = Some (Json (asdict_task task))
    /\ status task = "completed"
    /\ completed_at task = Some (utcnow_isoformat w)
    /\ result task = Some res
    /\ Dict.get "individual_sequential_thinking" res = Some (VDict ind)
    /\ Dict.keys ind = tail ids
    /\ Dict.get "collaborative_ultrathink" res = Some (VDict col)
    /\ Dict.keys col = tail ids
    /\ roster (agents run.1.2) = zip ids (map fst agent_specialties)
    /\ (new_agent_id (uuid_supply w) "synthesizer" (4 + uuid_drawn w),
        "synthesizer") ∈ roster (agents run.1.2)
    /\ Dict.get "final_synthesis" res = Some synthesizer_unavailable.
Proof.
  cbv zeta.
  set (s1 := initialize_swarm (new_SwarmOrchestrator n) w).
  assert (Hags : agents s1.1.2
                 = new_agents default_workspace (uuid_supply w) (uuid_drawn w))
    by apply fresh_swarm.
  destruct (initialize_swarm_world (new_SwarmOrchestrator n) w)
    as (Hd & Hs & Hn & Hws & _).
  fold s1 in Hd, Hs, Hn, Hws.
  assert (Hne : agents s1.1.2 <> []) by (rewrite Hags; discriminate).
  pose proof (execute_with_agents s1.1.2 problem s1.2 Hne) as H.
  cbv zeta in H. rewrite Hd, Hs, Hws, Hags in H.
  set (c := create_thinking_task s1.1.2 problem true s1.2) in *.
  set (ags := new_agents default_workspace (uuid_supply w) (uuid_drawn w)) in *.
  assert (Hwf : Dict.wf ags).
  { unfold Dict.wf, Dict.keys, ags. rewrite keys_new_agents.
    apply swarm_ids_distinct. }
  assert (Hnc : noncoordinators ags = tail (swarm_ids (uuid_supply w) (uuid_drawn w)))
    by reflexivity.
  assert (Hnd : NoDup (noncoordinators ags)) by now apply NoDup_noncoordinators.
  set (p1 := phase1 problem ags [] c.2) in *.
  assert (Hir : p1.1.2 = results_for (fun _ => thinking_process problem)
                                     (noncoordinators ags))
    by now apply phase1_results.
  destruct (phase1_spec problem ags [] c.2) as (_ & Hnc1 & _). fold p1 in Hnc1.
  set (p2 := phase2 problem p1.1.1 p1.1.2 [] p1.2) in *.
  destruct (phase2_spec problem p1.1.2 p1.1.1 [] p1.2) as (Hur & _ & _).
  fold p2 in Hur. rewrite Hnc1 in Hur.
  rewrite dict_update_results in Hur by exact Hnd.
  assert (Hroster : roster p2.1.1.1 = roster ags).
  { unfold p2. rewrite phase2_roster. unfold p1. apply phase1_roster. }
  assert (Hsyn : Dict.get "synthesizer_agent" p2.1.1.1 = None).
  { apply dict_get_None. rewrite <- keys_roster, Hroster, keys_roster.
    apply differs_from_all_spec. reflexivity. }
  rewrite Hsyn in H.
  destruct H as (Hres & Hagents & Htask & Hworld & Hnow).
  set (res := result_bundle p1.1.2 p2.1.1.2 synthesizer_unavailable) in *.
  set (task0 := set_result (Some res) _) in *.
  destruct (move_task_completed default_workspace task0 p2.2)
    as (Hst & Hca & Hrs & Hfile).
  cbv zeta in Hst, Hca, Hrs, Hfile.
  exists res, (move_task default_workspace task0 "completed" p2.2).1.2,
         p1.1.2, p2.1.1.2.
  split; [exact Hres |]. split; [exact Htask |].
  split; [rewrite Hworld; exact Hfile |].
  split; [exact Hst |].
  split; [rewrite Hca; unfold utcnow_isoformat; now rewrite Hnow, Hn |].
  split; [exact Hrs |].
  split; [reflexivity |].
  split; [rewrite Hir, keys_results_for; exact Hnc |].
  split; [reflexivity |].
  split; [rewrite Hur, keys_results_for; exact Hnc |].
  split; [rewrite Hagents, Hroster; reflexivity |].
  split; [rewrite Hagents, Hroster; do 4 right; left |].
  reflexivity.
Qed.

(** The run on the demo world: a synthesizer agent is in the swarm, and the
    final synthesis is the "not available" marker. *)
Example execute_demo_world_final_synthesis :
  let run := execute_sequential_swarm_thinking (new_SwarmOrchestrator 5) "P1"
                                               demo_world in
  Dict.keys (agents run.1.2)
  = ["coordinator_agent_a1b2c3d0"; "analyst_agent_a1b2c3d1";
     "validator_agent_a1b2c3d2"; "explorer_agent_a1b2c3d3";
     "synthesizer_agent_a1b2c3d4"]
  /\ exists res,
       run.1.1 = Ok res
       /\ Dict.get "final_synthesis" res
          = Some (VDict [("error", VStr "Synthesizer agent not available")]).
Proof.
  cbv zeta. split; [vm_compute; reflexivity |].
  eexists. split; vm_compute; reflexivity.
Qed.

(** ** Launch and cleanup *)

(** A launch that returns leaves a handle for the id it returns, and the
    handle holds the process that was started. *)
Lemma launch_agent_tracks l atype task w aid :
  (launch_agent l atype task w).1.1 = Ok aid ->
  aid = atype +:+ "_" +:+ pretty (now w)
  /\ exists info run_time td,
       popen_supply w (spawned w) = Some (run_time, td)
       /\ active_processes (launch_agent l atype task w).1.2 !! aid = Some info
       /\ process info = spawned w
       /\ processes (launch_agent l atype task w).2 !! spawned w
          = Some (mkProc (now w + run_time) td).
Proof.
  unfold launch_agent, Popen.
  destruct (Dict.get atype (agent_configs l)) as [cfg |]; [| discriminate].
  destruct (popen_supply w (spawned w)) as [[run_time td] |]; [| discriminate].
  cbn. intros E. injection E as <-. split; [reflexivity |].
  eexists _, run_time, td. split; [reflexivity |].
  split; [apply lookup_insert_eq |]. split; [reflexivity |].
  apply lookup_insert_eq.
Qed.

Lemma cleanup_agent_untracked l w aid :
  active_processes l !! aid = None -> cleanup_agent (l, w) aid = (l, w).
Proof. intros H. unfold cleanup_agent. now rewrite H. Qed.

Lemma cleanup_agent_handles l w aid b :
  active_processes (cleanup_agent (l, w) aid).1 !! b
  = if decide (aid = b) then None else active_processes l !! b.
Proof.
  unfold cleanup_agent. destruct (active_processes l !! aid) as [info |] eqn:E.
  - cbn. destruct (decide (aid = b)) as [-> | Hne].
    + apply lookup_delete_eq.
    + now apply lookup_delete_ne.
  - cbn. destruct (decide (aid = b)) as [-> | Hne]; [exact E | reflexivity].
Qed.

Lemma cleanup_swarm_cons l w aid ids :
  cleanup_swarm l (aid :: ids) w
  = cleanup_swarm (cleanup_agent (l, w) aid).1 ids (cleanup_agent (l, w) aid).2.
Proof.
  unfold cleanup_swarm. cbn [fold_left].
  now destruct (cleanup_agent (l, w) aid).
Qed.

Lemma cleanup_swarm_handles ids : forall l w b,
  active_processes (cleanup_swarm l ids w).1 !! b
  = if decide (b ∈ ids) then None else active_processes l !! b.
Proof.
  induction ids as [| aid ids IH]; intros l w b.
  - cbn. destruct (decide (b ∈ [])) as [H | _]; [| reflexivity].
    apply elem_of_nil in H. contradiction.
  - rewrite cleanup_swarm_cons, IH, cleanup_agent_handles.
    destruct (decide (b ∈ ids)) as [Hin | Hnin].
    + rewrite decide_True by now right. reflexivity.
    + destruct (decide (aid = b)) as [-> | Hne].
      * rewrite decide_True by left. reflexivity.
      * rewrite decide_False; [reflexivity |].
        intros H. apply elem_of_cons in H as [-> | H]; contradiction.
Qed.

Lemma cleanup_swarm_untracked ids : forall l w,
  (forall a, a ∈ ids -> active_processes l !! a = None) ->
  cleanup_swarm l ids w = (l, w).
Proof.
  induction ids as [| aid ids IH]; intros l w H; [reflexivity |].
  rewrite cleanup_swarm_cons.
  rewrite cleanup_agent_untracked by (apply H; left).
  apply IH. intros a Ha. apply H. now right.
Qed.

(** A process that is over stays over, whatever is cleaned up next. *)
Lemma over_terminate pid pid' w :
  alive pid w = false -> alive pid (terminate pid' w) = false.
Proof.
  unfold alive, terminate. intros H.
  destruct (processes w !! pid') as [p' |] eqn:E'; [| exact H].
  destruct (now w <? exits_at p') eqn:A; [| exact H].
  destruct (term_delay p') as [d |]; [| exact H].
  cbn [processes with_processes now].
  destruct (decide (pid' = pid)) as [-> | Hne].
  - rewrite lookup_insert_eq. rewrite E' in H. cbn. congruence.
  - now rewrite lookup_insert_ne.
Qed.

Lemma over_wait pid pid' t w :
  0 <= t -> alive pid w = false -> alive pid (wait pid' t w).2 = false.
Proof.
  unfold alive, wait. intros Ht H.
  destruct (processes w !! pid) as [p |] eqn:E.
  - apply Z.ltb_ge in H.
    destruct (processes w !! pid') as [p' |]; [| cbn; rewrite E; now apply Z.ltb_ge].
    destruct (exits_at p' <=? now w + t); cbn; rewrite E; apply Z.ltb_ge; lia.
  - destruct (processes w !! pid') as [p' |]; [| cbn; now rewrite E].
    destruct (exits_at p' <=? now w + t); cbn; now rewrite E.
Qed.

Lemma over_kill pid pid' w :
  alive pid w = false -> alive pid (kill pid' w) = false.
Proof.
  unfold alive, kill. intros H.
  destruct (processes w !! pid') as [p' |] eqn:E'; [| exact H].
  cbn [processes with_processes now].
  destruct (decide (pid' = pid)) as [-> | Hne].
  - rewrite lookup_insert_eq. cbn. apply Z.ltb_ge. lia.
  - now rewrite lookup_insert_ne.
Qed.

Lemma kill_is_final pid w : alive pid (kill pid w) = false.
Proof.
  unfold alive, kill. destruct (processes w !! pid) as [p |] eqn:E.
  - cbn. rewrite lookup_insert_eq. cbn. apply Z.ltb_ge. lia.
  - now rewrite E.
Qed.

Lemma wait_in_time pid t w :
  (wait pid t w).1 = true -> alive pid (wait pid t w).2 = false.
Proof.
  unfold alive, wait. destruct (processes w !! pid) as [p |] eqn:E.
  - destruct (exits_at p <=? now w + t) eqn:L; [| discriminate].
    intros _. cbn. rewrite E. apply Z.ltb_ge. lia.
  - intros _. cbn. now rewrite E.
Qed.

Lemma cleanup_agent_tracked l w aid info :
  active_processes l !! aid = Some info ->
  cleanup_agent (l, w) aid
  = (with_active_processes (delete aid (active_processes l)) l,
     stop_process (process info) w).
Proof.
  intros H. unfold cleanup_agent, stop_process. rewrite H.
  destruct (alive (process info) w); [| reflexivity].
  now destruct (wait (process info) 10 (terminate (process info) w)) as [[|] w'].
Qed.

Lemma stop_process_stops pid w : alive pid (stop_process pid w) = false.
Proof.
  unfold stop_process. destruct (alive pid w) eqn:A; [| exact A].
  cbv zeta. destruct (wait pid 10 (terminate pid w)).1 eqn:W.
  - now apply wait_in_time.
  - apply kill_is_final.
Qed.

Lemma over_stop_process pid pid' w :
  alive pid w = false -> alive pid (stop_process pid' w) = false.
Proof.
  intros H. unfold stop_process. destruct (alive pid' w); [| exact H].
  cbv zeta.
  assert (H' : alive pid (wait pid' 10 (terminate pid' w)).2 = false)
    by (apply over_wait; [lia | now apply over_terminate]).
  destruct (wait pid' 10 (terminate pid' w)).1; [exact H' | now apply over_kill].
Qed.

Lemma over_cleanup_agent pid l w aid :
  alive pid w = false -> alive pid (cleanup_agent (l, w) aid).2 = false.
Proof.
  intros H. destruct (active_processes l !! aid) as [info |] eqn:E.
  - rewrite (cleanup_agent_tracked _ _ _ _ E). now apply over_stop_process.
  - now rewrite cleanup_agent_untracked.
Qed.

Lemma over_cleanup_swarm pid ids : forall l w,
  alive pid w = false -> alive pid (cleanup_swarm l ids w).2 = false.
Proof.
  induction ids as [| aid ids IH]; intros l w H; [exact H |].
  rewrite cleanup_swarm_cons. apply IH. now apply over_cleanup_agent.
Qed.

Lemma cleanup_swarm_stops ids : forall l w a info,
  a ∈ ids -> active_processes l !! a = Some info ->
  alive (process info) (cleanup_swarm l ids w).2 = false.
Proof.
  induction ids as [| aid ids IH]; intros l w a info Hin Ha.
  - apply elem_of_nil in Hin. contradiction.
  - rewrite cleanup_swarm_cons.
    destruct (decide (aid = a)) as [-> | Hne].
    + apply over_cleanup_swarm.
      rewrite (cleanup_agent_tracked _ _ _ _ Ha). apply stop_process_stops.
    + apply elem_of_cons in Hin as [-> | Hin]; [contradiction |].
      apply (IH _ _ a info Hin).
      rewrite cleanup_agent_handles. now rewrite decide_False.
Qed.



(** ** Monitoring *)

Lemma poll_agents_spec l w ids : forall ac st res,
  results_readable l ids w ->
  exists ac' st' res',
    poll_agents l ids ac st res w = Ok (ac', st', res')
    /\ ac' = ac && forallb (fun a => negb (tracked_alive l w a)) ids
    /\ (forall x, st' !! x
                  = if bool_decide (x ∈ ids) && tracked l x
                    then Some (status_word l w x) else st !! x)
    /\ (forall x, res' !! x
                  = match res !! x with
                    | Some v => Some v
                    | None => if bool_decide (x ∈ ids) && tracked_over l w x
                              then result_on_disk l w x else None
                    end).
Proof.
  induction ids as [| aid ids IH]; intros ac st res Hread.
  - exists ac, st, res. split; [reflexivity |].
    split; [cbn; now rewrite andb_true_r |].
    split; intros x.
    + rewrite bool_decide_eq_false_2; [reflexivity | apply not_elem_of_nil].
    + rewrite bool_decide_eq_false_2 by apply not_elem_of_nil.
      now destruct (res !! x).
  - assert (Hread' : results_readable l ids w)
      by (intros a Ha; apply Hread; now right).
    cbn [poll_agents forallb].
    unfold tracked_alive at 1.
    destruct (active_processes l !! aid) as [info |] eqn:E.
    + destruct (alive (process info) w) eqn:A.
      * (* still running *)
        destruct (IH false (<[aid := "running"]> st) res Hread')
          as (ac' & st' & res' & Hp & Hac & Hst & Hres).
        exists ac', st', res'. split; [exact Hp |].
        split; [rewrite Hac; cbn; now rewrite andb_false_r |].
        split; intros x.
        -- rewrite Hst. unfold tracked, status_word, tracked_alive.
           destruct (decide (x = aid)) as [-> | Hne].
           ++ rewrite (bool_decide_eq_true_2 (aid ∈ aid :: ids)) by left.
              rewrite E, A.
              rewrite (bool_decide_eq_true_2 (is_Some (Some info)))
                by (eexists; reflexivity).
              cbn. rewrite lookup_insert_eq.
              now destruct (bool_decide (aid ∈ ids)).
           ++ rewrite lookup_insert_ne by congruence.
              rewrite (bool_decide_ext (x ∈ aid :: ids) (x ∈ ids)); [reflexivity |].
              rewrite elem_of_cons. tauto.
        -- rewrite Hres. destruct (res !! x); [reflexivity |].
           unfold tracked_over.
           destruct (decide (x = aid)) as [-> | Hne].
           ++ rewrite E, A. cbn. now rewrite !andb_false_r.
           ++ rewrite (bool_decide_ext (x ∈ aid :: ids) (x ∈ ids)); [reflexivity |].
              rewrite elem_of_cons. tauto.
      * (* over *)
        set (st1 := <[aid := "completed"]> st).
        assert (Hcase :
          exists res1,
            (if path_exists (result_file l aid) w
                && negb (bool_decide (is_Some (res !! aid)))
             then match files w !! result_file l aid with
                  | Some (Json v) =>
                      poll_agents l ids ac st1 (<[aid := v]> res) w
                  | _ => Raise (JSONDecodeError (result_file l aid))
                  end
             else poll_agents l ids ac st1 res w)
            = poll_agents l ids ac st1 res1 w
            /\ forall x, res1 !! x
                         = match res !! x with
                           | Some v => Some v
                           | None => if decide (x = aid)
                                     then result_on_disk l w aid else None
                           end).
        { unfold path_exists, result_on_disk.
          destruct (files w !! result_file l aid) as [[v |] |] eqn:F.
          - rewrite bool_decide_eq_true_2 by (eexists; reflexivity).
            destruct (res !! aid) as [v0 |] eqn:R.
            + rewrite bool_decide_eq_true_2 by (eexists; reflexivity). cbn.
              exists res. split; [reflexivity |]. intros x.
              destruct (res !! x) eqn:Rx; [reflexivity |].
              destruct (decide (x = aid)) as [-> | _]; [congruence | reflexivity].
            + rewrite bool_decide_eq_false_2 by (intros [? ?]; discriminate).
              cbn. exists (<[aid := v]> res). split; [reflexivity |]. intros x.
              destruct (decide (x = aid)) as [-> | Hne].
              * now rewrite lookup_insert_eq, R.
              * rewrite lookup_insert_ne by congruence. now destruct (res !! x).
          - exfalso. apply (Hread aid); [left | exact F].
          - rewrite bool_decide_eq_false_2 by (intros [? ?]; discriminate).
            cbn. exists res. split; [reflexivity |]. intros x.
            destruct (res !! x); [reflexivity |]. now destruct (decide (x = aid)). }
        destruct Hcase as (res1 & Heq & Hres1). rewrite Heq.
        destruct (IH ac st1 res1 Hread')
          as (ac' & st' & res' & Hp & Hac & Hst & Hres).
        exists ac', st', res'. split; [exact Hp |].
        split; [rewrite Hac; reflexivity |].
        split; intros x.
        -- rewrite Hst. unfold tracked, status_word, tracked_alive, st1.
           destruct (decide (x = aid)) as [-> | Hne].
           ++ rewrite (bool_decide_eq_true_2 (aid ∈ aid :: ids)) by left.
              rewrite E, A.
              rewrite (bool_decide_eq_true_2 (is_Some (Some info)))
                by (eexists; reflexivity).
              cbn. rewrite lookup_insert_eq.
              now destruct (bool_decide (aid ∈ ids)).
           ++ rewrite lookup_insert_ne by congruence.
              rewrite (bool_decide_ext (x ∈ aid :: ids) (x ∈ ids)); [reflexivity |].
              rewrite elem_of_cons. tauto.
        -- rewrite Hres, Hres1. destruct (res !! x); [reflexivity |].
           unfold tracked_over.
           destruct (decide (x = aid)) as [-> | Hne].
           ++ rewrite E, A. rewrite (bool_decide_eq_true_2 (aid ∈ aid :: ids)) by left.
              cbn. destruct (result_on_disk l w aid); [reflexivity |].
              now destruct (bool_decide (aid ∈ ids)).
           ++ rewrite (bool_decide_ext (x ∈ aid :: ids) (x ∈ ids)); [reflexivity |].
              rewrite elem_of_cons. tauto.
    + (* no handle *)
      destruct (IH ac st res Hread') as (ac' & st' & res' & Hp & Hac & Hst & Hres).
      exists ac', st', res'. split; [exact Hp |].
      split; [rewrite Hac; reflexivity |].
      split; intros x.
      * rewrite Hst. unfold tracked.
        destruct (decide (x = aid)) as [-> | Hne].
        -- rewrite E. rewrite (bool_decide_eq_false_2 (is_Some None))
             by (intros [? ?]; discriminate).
           now rewrite !andb_false_r.
        -- rewrite (bool_decide_ext (x ∈ aid :: ids) (x ∈ ids)); [reflexivity |].
           rewrite elem_of_cons. tauto.
      * rewrite Hres. destruct (res !! x); [reflexivity |].
        unfold tracked_over.
        destruct (decide (x = aid)) as [-> | Hne].
        -- rewrite E. now rewrite !andb_false_r.
        -- rewrite (bool_decide_ext (x ∈ aid :: ids) (x ∈ ids)); [reflexivity |].
           rewrite elem_of_cons. tauto.
Qed.

Lemma monitor_loop_unfold fuel l ids timeout start st res w :
  monitor_loop fuel l ids timeout start st res w
  = if now w - start <? timeout then
      match fuel with
      | O => None
      | S fuel' =>
          match poll_agents l ids true st res w with
          | Raise e => Some (Raise e, w)
          | Ok (all_complete, st1, res1) =>
              if all_complete then Some (Ok (st1, res1), w)
              else monitor_loop fuel' l ids timeout start st1 res1 (sleep 5 w)
          end
      end
    else Some (Ok (st, res), w).
Proof. destruct fuel; reflexivity. Qed.

(** The polling loop always comes to an end within [monitor_fuel] turns. *)
Lemma monitor_loop_terminates l ids timeout start : forall fuel st res w,
  start + timeout - now w <= 5 * Z.of_nat fuel ->
  is_Some (monitor_loop fuel l ids timeout start st res w).
Proof.
  induction fuel as [| fuel IH]; intros st res w Hfuel;
    rewrite monitor_loop_unfold;
    destruct (now w - start <? timeout) eqn:C; try (eexists; reflexivity).
  - apply Z.ltb_lt in C. lia.
  - apply Z.ltb_lt in C.
    destruct (poll_agents l ids true st res w) as [[[ac st1] res1] | e];
      [| eexists; reflexivity].
    destruct ac; [eexists; reflexivity |].
    apply IH. cbn [now sleep with_now]. lia.
Qed.

Lemma monitor_fuel_enough timeout :
  timeout <= 5 * Z.of_nat (monitor_fuel timeout).
Proof.
  unfold monitor_fuel. destruct (Z_lt_le_dec timeout 0) as [Hneg | Hpos].
  - lia.
  - rewrite Z2Nat.id by (pose proof (Z.div_pos timeout 5 Hpos); lia).
    pose proof (Z.mod_pos_bound timeout 5 ltac:(lia)).
    pose proof (Z.div_mod timeout 5 ltac:(lia)). lia.
Qed.

Lemma monitor_swarm_terminates l ids timeout w :
  is_Some (monitor_swarm l ids timeout w).
Proof.
  unfold monitor_swarm.
  destruct (monitor_loop_terminates l ids timeout (now w) (monitor_fuel timeout)
              ∅ ∅ w) as [[[[st res] | e] w'] E].
  - pose proof (monitor_fuel_enough timeout). lia.
  - rewrite E. eexists. reflexivity.
  - rewrite E. eexists. reflexivity.
Qed.

Section MonitorTimeout.
Variables (l : AgentLauncher) (ids : list string) (timeout : Z) (w0 : world).
Variables (A : string) (info : ProcessInfo) (p : proc).
Hypothesis HA : A ∈ ids.
Hypothesis Htracked : active_processes l !! A = Some info.
Hypothesis Hproc : processes w0 !! process info = Some p.
Hypothesis Hlong : now w0 + timeout < exits_at p.
Hypothesis Hread : results_readable l ids w0.

Lemma later_result_on_disk w x :
  later_than w0 w -> result_on_disk l w x = result_on_disk l w0 x.
Proof. intros (Hf & _). unfold result_on_disk. now rewrite Hf. Qed.

Lemma later_tracked_over w B :
  later_than w0 w -> tracked_over l w0 B = true -> tracked_over l w B = true.
Proof.
  intros (_ & Hp & Hn). unfold tracked_over, alive.
  destruct (active_processes l !! B) as [i |]; [| discriminate].
  rewrite Hp. destruct (processes w0 !! process i) as [q |]; [| reflexivity].
  rewrite !negb_true_iff, !Z.ltb_ge. lia.
Qed.

Lemma one_pass w st res :
  later_than w0 w -> now w - now w0 < timeout ->
  collected_from_disk l w0 res ->
  exists st' res',
    poll_agents l ids true st res w = Ok (false, st', res')
    /\ reported l ids w0 A st' res'
    /\ collected_from_disk l w0 res'.
Proof.
  intros Hl Hin Hcol.
  assert (Hread' : results_readable l ids w).
  { intros a Ha. destruct Hl as (Hf & _). rewrite Hf. now apply Hread. }
  destruct (poll_agents_spec l w ids true st res Hread')
    as (ac' & st' & res' & Hp & Hac & Hst & Hres).
  assert (HAalive : tracked_alive l w A = true).
  { unfold tracked_alive, alive. rewrite Htracked.
    destruct Hl as (_ & Hpr & Hn). rewrite Hpr, Hproc. apply Z.ltb_lt. lia. }
  assert (Hfalse : ac' = false).
  { rewrite Hac. cbn. apply not_true_is_false. intros Hall.
    rewrite forallb_forall in Hall.
    specialize (Hall A (proj1 (list_elem_of_In _ _) HA)).
    rewrite HAalive in Hall. discriminate. }
  clear Hac. subst ac'.
  exists st', res'. split; [exact Hp |]. split; [split |].
  - rewrite Hst. rewrite bool_decide_eq_true_2 by exact HA.
    unfold tracked. rewrite Htracked.
    rewrite bool_decide_eq_true_2 by (eexists; reflexivity).
    cbn. unfold status_word. now rewrite HAalive.
  - intros B v HB Hover Hdisk.
    pose proof (later_tracked_over w B Hl Hover) as Hover'.
    split.
    + rewrite Hst. rewrite bool_decide_eq_true_2 by exact HB.
      unfold tracked, status_word, tracked_alive.
      unfold tracked_over in Hover'.
      destruct (active_processes l !! B) as [i |]; [| discriminate].
      rewrite bool_decide_eq_true_2 by (eexists; reflexivity).
      cbn. apply negb_true_iff in Hover'. now rewrite Hover'.
    + rewrite Hres. destruct (res !! B) as [v' |] eqn:R.
      * rewrite <- Hdisk. symmetry. now apply Hcol.
      * rewrite bool_decide_eq_true_2 by exact HB. rewrite Hover'. cbn.
        now rewrite later_result_on_disk.
  - intros x v Hx. rewrite Hres in Hx.
    destruct (res !! x) as [v' |] eqn:R.
    + apply Hcol. congruence.
    + destruct (bool_decide (x ∈ ids) && tracked_over l w x); [| discriminate].
      now rewrite <- (later_result_on_disk w x Hl).
Qed.

Lemma monitor_loop_timeout : forall fuel w st res,
  later_than w0 w ->
  now w0 + timeout - now w <= 5 * Z.of_nat fuel ->
  now w - now w0 < timeout + 5 ->
  now w - now w0 < timeout \/ reported l ids w0 A st res ->
  collected_from_disk l w0 res ->
  exists st' res' w',
    monitor_loop fuel l ids timeout (now w0) st res w = Some (Ok (st', res'), w')
    /\ later_than w0 w'
    /\ timeout <= now w' - now w0 < timeout + 5
    /\ reported l ids w0 A st' res'.
Proof.
  induction fuel as [| fuel IH]; intros w st res Hl Hfuel Hup Hrep Hcol;
    rewrite monitor_loop_unfold;
    destruct (now w - now w0 <? timeout) eqn:C.
  - apply Z.ltb_lt in C. lia.
  - apply Z.ltb_ge in C. exists st, res, w. split; [reflexivity |].
    split; [exact Hl |]. split; [lia |]. destruct Hrep; [lia | assumption].
  - apply Z.ltb_lt in C.
    destruct (one_pass w st res Hl C Hcol) as (st1 & res1 & Hp & Hrep1 & Hcol1).
    rewrite Hp.
    apply IH.
    + destruct Hl as (Hf & Hpr & Hn). repeat split; cbn; try assumption. lia.
    + cbn [now sleep with_now]. lia.
    + cbn [now sleep with_now]. lia.
    + now right.
    + exact Hcol1.
  - apply Z.ltb_ge in C. exists st, res, w. split; [reflexivity |].
    split; [exact Hl |]. split; [lia |]. destruct Hrep; [lia | assumption].
Qed.
End MonitorTimeout.




(** * More properties *)

(** ** Strings and path names *)

Lemma string_app_cons (x : ascii) (a b : string) :
  String x a +:+ b = String x (a +:+ b).
Proof. reflexivity. Qed.

Lemma string_app_nil (b : string) : "" +:+ b = b.
Proof. reflexivity. Qed.

Lemma string_app_assoc (a b c : string) : (a +:+ b) +:+ c = a +:+ (b +:+ c).
Proof.
  induction a as [| x a IH]; [reflexivity |].
  rewrite !string_app_cons. now rewrite IH.
Qed.

Lemma string_length_app (a b : string) :
  String.length (a +:+ b) = (String.length a + String.length b)%nat.
Proof.
  induction a as [| x a IH]; [reflexivity |].
  rewrite string_app_cons. cbn [String.length]. now rewrite IH.
Qed.

Lemma string_app_inj_r (t a b : string) : a +:+ t = b +:+ t -> a = b.
Proof.
  revert b. induction a as [| x a IH]; intros [| y b] H.
  - reflexivity.
  - exfalso. apply (f_equal String.length) in H.
    rewrite string_app_nil, string_app_cons in H. cbn [String.length] in H.
    rewrite string_length_app in H. lia.
  - exfalso. apply (f_equal String.length) in H.
    rewrite string_app_nil, string_app_cons in H. cbn [String.length] in H.
    rewrite string_length_app in H. lia.
  - rewrite !string_app_cons in H. injection H as -> H. f_equal. now apply IH.
Qed.

Lemma string_prefix_app (d x : string) : String.prefix d (d +:+ x) = true.
Proof.
  induction d as [| c d IH]; [now destruct x |].
  rewrite string_app_cons. cbn [String.prefix].
  destruct (ascii_dec c c); [exact IH | contradiction].
Qed.

Lemma string_prefix_empty (s : string) : String.prefix "" s = true.
Proof. now destruct s. Qed.

Lemma substring_whole (x : string) : substring 0 (String.length x) x = x.
Proof. induction x as [| c x IH]; cbn; [reflexivity | now rewrite IH]. Qed.

Lemma substring_skip (d x : string) (n : nat) :
  substring (String.length d) n (d +:+ x) = substring 0 n x.
Proof.
  induction d as [| c d IH]; [reflexivity |].
  rewrite string_app_cons. cbn [String.length substring]. exact IH.
Qed.

Lemma has_suffix_app (x suf : string) : has_suffix suf (x +:+ suf) = true.
Proof.
  unfold has_suffix. rewrite string_length_app.
  apply andb_true_intro. split; [apply Nat.leb_le; lia |].
  replace (String.length x + String.length suf - String.length suf)%nat
    with (String.length x) by lia.
  rewrite substring_skip, substring_whole. apply String.eqb_refl.
Qed.

Lemma has_char_app (c : ascii) (a b : string) :
  has_char c (a +:+ b) = has_char c a || has_char c b.
Proof.
  induction a as [| x a IH]; [reflexivity |].
  rewrite string_app_cons. cbn [has_char]. rewrite IH. now rewrite orb_assoc.
Qed.

(** A file [dir/pre·mid·suf] without a slash in its name is matched by the
    pattern [pre*suf] in [dir]. *)
Lemma glob_match_name (dir pre mid suf : string) :
  has_char "/" (pre +:+ mid +:+ suf) = false ->
  glob_match dir pre suf (dir +:+ "/" +:+ pre +:+ mid +:+ suf) = true.
Proof.
  intros Hslash. unfold glob_match.
  set (name := pre +:+ mid +:+ suf).
  assert (Hpath : dir +:+ "/" +:+ name = (dir +:+ "/") +:+ name)
    by now rewrite string_app_assoc.
  rewrite Hpath.
  assert (Hname : substring (String.length (dir +:+ "/"))
                    (String.length ((dir +:+ "/") +:+ name)
                     - String.length (dir +:+ "/"))
                    ((dir +:+ "/") +:+ name) = name).
  { rewrite substring_skip, string_length_app.
    replace (String.length (dir +:+ "/") + String.length name
             - String.length (dir +:+ "/"))%nat
      with (String.length name) by lia.
    apply substring_whole. }
  rewrite Hname, string_prefix_app. unfold name. rewrite Hslash.
  rewrite string_prefix_app.
  replace (pre +:+ mid +:+ suf) with ((pre +:+ mid) +:+ suf)
    by apply string_app_assoc.
  rewrite has_suffix_app. rewrite !string_length_app.
  cbn. rewrite andb_true_r. apply Nat.leb_le. lia.
Qed.

Lemma task_file_status_inj ws tid a b :
  task_file ws a tid = task_file ws b tid -> a = b.
Proof.
  unfold task_file. intros H.
  apply (inj (String.app _)) in H. apply (inj (String.app _)) in H.
  now apply string_app_inj_r in H.
Qed.

Lemma thinking_file_stage_inj ws aid a b :
  thinking_file ws aid a = thinking_file ws aid b -> a = b.
Proof.
  unfold thinking_file. intros H.
  do 4 apply (inj (String.app _)) in H.
  now apply string_app_inj_r in H.
Qed.

(** ** Moving and reading back task records *)

Lemma move_task_files ws task s w :
  recognized s = true ->
  (move_task ws task s w).1.1 = Ok tt
  /\ status (move_task ws task s w).1.2 = s
  /\ task_id (move_task ws task s w).1.2 = task_id task
  /\ files (move_task ws task s w).2
     = <[task_file ws s (task_id task)
         := Json (asdict_task (move_task ws task s w).1.2)]>
         (delete (task_file ws (status task) (task_id task)) (files w)).
Proof.
  intros R. rewrite move_task_unfold. cbv zeta.
  rewrite write_task_recognized by (rewrite moved_task_status; exact R).
  cbn [fst snd]. rewrite moved_task_status.
  set (t2 := if String.eqb s "completed" then _ else _).
  assert (Hid : task_id t2 = task_id task)
    by (unfold t2; destruct (String.eqb s "completed"); reflexivity).
  rewrite Hid. unfold json_dump. cbn [files with_files].
  rewrite files_after_unlink. repeat split.
Qed.

(** X1.  For a recognized new status, [move_task] leaves the store with the
    record of the task at the new status and nowhere else among the two
    places it touches: the store is the old one with the source record
    removed and the destination record written, every other file is as it
    was, and for a task whose old status differs from the new one the
    source place is empty afterwards. *)
Theorem move_task_relocates ws task s w :
  recognized s = true ->
  let mv := move_task ws task s w in
  let src := task_file ws (status task) (task_id task) in
  let dst := task_file ws s (task_id task) in
  task_id mv.1.2 = task_id task
  /\ files mv.2 = <[dst := Json (asdict_task mv.1.2)]> (delete src (files w))
  /\ files mv.2 !! dst = Some (Json (asdict_task mv.1.2))
  /\ (status task <> s -> files mv.2 !! src = None)
  /\ (forall path, path <> src -> path <> dst ->
        files mv.2 !! path = files w !! path).
Proof.
  intros R. cbv zeta.
  destruct (move_task_files ws task s w R) as (_ & _ & Hid & Hf).
  rewrite Hf.
  split; [exact Hid |]. split; [reflexivity |].
  split; [apply lookup_insert_eq |].
  split.
  - intros Hne. rewrite lookup_insert_ne.
    + apply lookup_delete_eq.
    + intros E. apply task_file_status_inj in E. congruence.
  - intros path H1 H2.
    rewrite lookup_insert_ne by congruence. now rewrite lookup_delete_ne by congruence.
Qed.

Lemma move_task_relocates_witness :
  let w := (write_task default_workspace (demo_task "pending") demo_world).2 in
  let mv := move_task default_workspace (demo_task "pending") "active" w in
  files w !! task_file default_workspace "pending" "thinking_task_00c0ffee"
  = Some (Json (asdict_task (demo_task "pending")))
  /\ files mv.2 !! task_file default_workspace "pending" "thinking_task_00c0ffee"
     = None
  /\ files mv.2 !! task_file default_workspace "active" "thinking_task_00c0ffee"
     = Some (Json (asdict_task (demo_task "active"))).
Proof.
  cbv zeta.
  set (w := (write_task default_workspace (demo_task "pending") demo_world).2).
  split; [apply lookup_insert_eq |].
  destruct (move_task_relocates default_workspace (demo_task "pending") "active" w
              eq_refl) as (_ & _ & Hd & Hs & _).
  split; [apply Hs; discriminate |]. exact Hd.
Defined.

(** X2.  [move_task] does not need the source record: when no record is at
    the task's current status (it was removed already), a move to a
    recognized status still returns, and the only change to the store is
    the record written at the new status. *)
Theorem move_task_source_absent ws task s w :
  recognized s = true ->
  files w !! task_file ws (status task) (task_id task) = None ->
  let mv := move_task ws task s w in
  mv.1.1 = Ok tt
  /\ status mv.1.2 = s
  /\ files mv.2
     = <[task_file ws s (task_id task) := Json (asdict_task mv.1.2)]> (files w).
Proof.
  intros R Habsent. cbv zeta.
  destruct (move_task_files ws task s w R) as (Hr & Hs & _ & Hf).
  rewrite Hf, (delete_id _ _ Habsent). repeat split; assumption.
Qed.

Lemma move_task_source_absent_witness :
  let mv := move_task default_workspace (demo_task "pending") "completed"
                      demo_world in
  mv.1.1 = Ok tt
  /\ files mv.2
     = {[ task_file default_workspace "completed" "thinking_task_00c0ffee"
          := Json (asdict_task mv.1.2) ]}.
Proof.
  cbv zeta.
  destruct (move_task_source_absent default_workspace (demo_task "pending")
              "completed" demo_world eq_refl) as (H1 & _ & H3).
  - reflexivity.
  - split; [exact H1 |]. rewrite H3. reflexivity.
Defined.

Lemma Task_from_kwargs_asdict t w :
  Task_from_kwargs (asdict_task t) w
  = Some (if String.eqb (created_at t) ""
          then Dict.set "created_at" (VStr (utcnow_isoformat w)) (attributes t)
          else attributes t).
Proof.
  unfold Task_from_kwargs, attributes, asdict_task.
  cbn. destruct (String.eqb (created_at t) ""); reflexivity.
Qed.

Lemma pending_file_matches ws tid :
  has_char "/" tid = false ->
  glob_match (base_dir ws +:+ "/tasks/pending") "" ".json"
             (task_file ws "pending" tid) = true.
Proof.
  intros Hslash.
  replace (task_file ws "pending" tid)
    with ((base_dir ws +:+ "/tasks/pending") +:+ "/" +:+ "" +:+ tid +:+ ".json").
  - apply glob_match_name. rewrite string_app_nil, has_char_app, Hslash.
    reflexivity.
  - unfold task_file. now rewrite string_app_assoc.
Qed.

Lemma load_tasks_elem entries w : forall ts path d,
  load_tasks entries w = inr ts ->
  (path, Json d) ∈ entries ->
  exists task, Task_from_kwargs d w = Some task /\ task ∈ ts.
Proof.
  induction entries as [| [p f] rest IH]; intros ts path d Hload Hin.
  - apply elem_of_nil in Hin. contradiction.
  - cbn in Hload. destruct f as [v |]; [| discriminate].
    destruct (Task_from_kwargs v w) as [task0 |] eqn:T; [| discriminate].
    destruct (load_tasks rest w) as [e | ts0] eqn:L; [discriminate |].
    injection Hload as <-.
    apply elem_of_cons in Hin as [E | Hin].
    + injection E as -> ->. exists task0. split; [exact T | left].
    + destruct (IH ts0 path d eq_refl Hin) as (task & HT & Hts).
      exists task. split; [exact HT | now right].
Qed.

Lemma load_tasks_bad entries w : forall path f,
  (path, f) ∈ entries ->
  match f with
  | Garbage => True
  | Json d => Task_from_kwargs d w = None
  end ->
  exists e, load_tasks entries w = inl e.
Proof.
  induction entries as [| [p f0] rest IH]; intros path f Hin Hbad.
  - apply elem_of_nil in Hin. contradiction.
  - cbn. apply elem_of_cons in Hin as [E | Hin].
    + injection E as <- <-. destruct f as [d |]; [| eauto].
      rewrite Hbad. eauto.
    + destruct f0 as [v |]; [| eauto].
      destruct (Task_from_kwargs v w); [| eauto].
      destruct (IH path f Hin Hbad) as [e ->]. eauto.
Qed.

Lemma filter_none {A : Type} (P : A -> Prop) `{forall x, Decision (P x)}
    (l : list A) :
  (forall x, x ∈ l -> ~ P x) -> filter P l = [].
Proof.
  induction l as [| x l IH]; intros Hall; [reflexivity |].
  rewrite filter_cons. destruct (decide (P x)) as [HP | _].
  - exfalso. apply (Hall x); [left | exact HP].
  - apply IH. intros y Hy. apply Hall. now right.
Qed.

(** X3.  A pending task written by [write_task] is read back by
    [get_pending_tasks]: whenever the listing returns, it contains an
    object with the attributes of the task, and when no other file of the
    pending area matches [*.json] the listing is exactly that object.  The
    task id must not contain a slash.  A task with an empty [created_at]
    does not come back as it was: [__post_init__] stamps the copy with the
    time of the reading. *)
Theorem get_pending_tasks_reads_back ws t w :
  status t = "pending" ->
  has_char "/" (task_id t) = false ->
  let w' := (write_task ws t w).2 in
  let loaded :=
    if String.eqb (created_at t) ""
    then Dict.set "created_at" (VStr (utcnow_isoformat w')) (attributes t)
    else attributes t in
  (forall ts, get_pending_tasks ws w' = inr ts -> loaded ∈ ts)
  /\ ((forall path f, files w !! path = Some f ->
         glob_match (base_dir ws +:+ "/tasks/pending") "" ".json" path = false) ->
      get_pending_tasks ws w' = inr [loaded]).
Proof.
  intros Hst Hslash. cbv zeta.
  assert (R : recognized (status t) = true) by now rewrite Hst.
  rewrite (write_task_recognized _ _ _ R). cbn [snd]. rewrite Hst.
  set (path := task_file ws "pending" (task_id t)).
  set (w' := json_dump path (asdict_task t) w).
  assert (Hm : glob_match (base_dir ws +:+ "/tasks/pending") "" ".json" path = true)
    by now apply pending_file_matches.
  split.
  - intros ts Hload. unfold get_pending_tasks in Hload.
    destruct (load_tasks_elem _ w' ts path (asdict_task t) Hload)
      as (task & HT & Hts).
    + apply list_elem_of_filter. split; [exact Hm |].
      apply elem_of_map_to_list. apply lookup_insert_eq.
    + rewrite Task_from_kwargs_asdict in HT. now injection HT as <-.
  - intros Hempty. unfold get_pending_tasks, glob.
    assert (Hnone : files w !! path = None).
    { destruct (files w !! path) as [f |] eqn:E; [| reflexivity].
      apply Hempty in E. congruence. }
    assert (Hl : filter (fun pf => glob_match (base_dir ws +:+ "/tasks/pending")
                                              "" ".json" pf.1 = true)
                        (map_to_list (files w'))
                 = [(path, Json (asdict_task t))]).
    { apply Permutation_singleton_r.
      unfold w', json_dump. cbn [files with_files].
      rewrite (map_to_list_insert _ _ _ Hnone).
      rewrite filter_cons_True by exact Hm.
      apply Permutation_skip.
      rewrite filter_none; [reflexivity |].
      intros [p' f'] Hin. apply elem_of_map_to_list in Hin.
      apply Hempty in Hin. cbn. congruence. }
    rewrite Hl. cbn [load_tasks]. rewrite Task_from_kwargs_asdict. reflexivity.
Qed.

Lemma get_pending_tasks_reads_back_witness :
  get_pending_tasks default_workspace
    (write_task default_workspace (demo_task "pending") demo_world).2
  = inr [attributes (demo_task "pending")].
Proof.
  destruct (get_pending_tasks_reads_back default_workspace (demo_task "pending")
              demo_world eq_refl eq_refl) as (_ & H).
  apply H. intros path f Hf. discriminate Hf.
Defined.

(** X4.  One bad record spoils the whole listing: when some [*.json] file
    of the pending area cannot be decoded, or holds something that [Task]
    does not accept, [get_pending_tasks] raises and returns no task. *)
Theorem get_pending_tasks_bad_record ws w path f :
  files w !! path = Some f ->
  glob_match (base_dir ws +:+ "/tasks/pending") "" ".json" path = true ->
  match f with
  | Garbage => True
  | Json d => Task_from_kwargs d w = None
  end ->
  exists e, get_pending_tasks ws w = inl e.
Proof.
  intros Hf Hm Hbad. unfold get_pending_tasks.
  apply (load_tasks_bad _ w path f); [| exact Hbad].
  apply list_elem_of_filter. split; [exact Hm |].
  now apply elem_of_map_to_list.
Qed.

Lemma get_pending_tasks_bad_record_witness :
  exists e,
    get_pending_tasks default_workspace
      (json_dump "/tmp/swarm_workspace/tasks/pending/broken.json"
                 (VList [VStr "not a task"])
         (write_task default_workspace (demo_task "pending") demo_world).2)
    = inl e.
Proof.
  apply (get_pending_tasks_bad_record default_workspace _
           "/tmp/swarm_workspace/tasks/pending/broken.json"
           (Json (VList [VStr "not a task"]))).
  - apply lookup_insert_eq.
  - reflexivity.
  - reflexivity.
Defined.

(** ** Thinking logs *)

Lemma log_thinking_files agent stage content w :
  files (log_thinking agent stage content w).2
  = <[thinking_file (agent_workspace agent) (agent_id agent) stage
      := Json (VDict [("agent_id", VStr (agent_id agent));
                      ("timestamp", VStr (utcnow_isoformat w));
                      ("stage", VStr stage);
                      ("content", content)])]> (files w).
Proof. reflexivity. Qed.

(** X5.  Logging the same stage twice keeps one record per agent and
    stage: the file of the stage holds the later entry only, and the store
    is the one that the later call alone would have left, while the
    [thinking_log] of the agent object has both entries, in order. *)
Theorem log_thinking_overwrites_stage agent stage c1 c2 w :
  let s1 := log_thinking agent stage c1 w in
  let s2 := log_thinking s1.1 stage c2 s1.2 in
  let entry c := VDict [("agent_id", VStr (agent_id agent));
                        ("timestamp", VStr (utcnow_isoformat w));
                        ("stage", VStr stage);
                        ("content", c)] in
  files s2.2 = files (log_thinking agent stage c2 w).2
  /\ files s2.2 !! thinking_file (agent_workspace agent) (agent_id agent) stage
     = Some (Json (entry c2))
  /\ thinking_log s2.1 = (thinking_log agent ++ [entry c1; entry c2])%list
  /\ dom (files s2.2) = dom (files s1.2).
Proof.
  cbv zeta.
  set (f := thinking_file (agent_workspace agent) (agent_id agent) stage).
  set (entry := fun c => VDict [("agent_id", VStr (agent_id agent));
                                ("timestamp", VStr (utcnow_isoformat w));
                                ("stage", VStr stage);
                                ("content", c)]).
  assert (F1 : files (log_thinking agent stage c1 w).2
               = <[f := Json (entry c1)]> (files w)) by reflexivity.
  assert (F2 : files (log_thinking (log_thinking agent stage c1 w).1 stage c2
                                   (log_thinking agent stage c1 w).2).2
               = <[f := Json (entry c2)]> (<[f := Json (entry c1)]> (files w)))
    by reflexivity.
  rewrite F2, F1, log_thinking_files. fold f. fold (entry c2).
  split; [apply insert_insert_eq |].
  split; [apply lookup_insert_eq |].
  split; [cbn [thinking_log log_thinking fst]; now rewrite <- app_assoc |].
  apply dom_insert_lookup_L. rewrite lookup_insert_eq. eexists. reflexivity.
Qed.

(** X6.  The two phases of one agent leave two records, one per stage,
    each naming the agent and its stage, and two entries in the agent's
    [thinking_log]; running [sequential_think] once more adds no file. *)
Theorem two_phases_two_records agent problem peers w :
  let s1 := sequential_think agent problem w in
  let s2 := ultrathink_collaborative s1.1.2 problem peers s1.2 in
  let s3 := sequential_think s2.1.2 problem s2.2 in
  let ws := agent_workspace agent in
  let aid := agent_id agent in
  (exists e1, files s2.2 !! thinking_file ws aid "sequential_analysis" = Some (Json e1)
      /\ field "agent_id" e1 = Some (VStr aid)
      /\ field "stage" e1 = Some (VStr "sequential_analysis")
      /\ field "content" e1 = Some s1.1.1)
  /\ (exists e2, files s2.2 !! thinking_file ws aid "ultrathink_collaborative"
                 = Some (Json e2)
      /\ field "agent_id" e2 = Some (VStr aid)
      /\ field "stage" e2 = Some (VStr "ultrathink_collaborative")
      /\ field "content" e2 = Some s2.1.1)
  /\ dom (files s2.2)
     = {[thinking_file ws aid "ultrathink_collaborative"]}
       ∪ ({[thinking_file ws aid "sequential_analysis"]} ∪ dom (files w))
  /\ length (thinking_log s2.1.2) = (2 + length (thinking_log agent))%nat
  /\ dom (files s3.2) = dom (files s2.2)
  /\ length (thinking_log s3.1.2) = (3 + length (thinking_log agent))%nat.
Proof.
  cbv zeta.
  assert (Hne : thinking_file (agent_workspace agent) (agent_id agent)
                              "ultrathink_collaborative"
                <> thinking_file (agent_workspace agent) (agent_id agent)
                                 "sequential_analysis").
  { intros E. apply thinking_file_stage_inj in E. discriminate E. }
  assert (F2 : files (ultrathink_collaborative
                        (sequential_think agent problem w).1.2 problem peers
                        (sequential_think agent problem w).2).2
               = <[thinking_file (agent_workspace agent) (agent_id agent)
                                 "ultrathink_collaborative"
                   := Json (VDict [("agent_id", VStr (agent_id agent));
                                   ("timestamp", VStr (utcnow_isoformat w));
                                   ("stage", VStr "ultrathink_collaborative");
                                   ("content", collaborative_insights problem peers)])]>
                  (<[thinking_file (agent_workspace agent) (agent_id agent)
                                   "sequential_analysis"
                     := Json (VDict [("agent_id", VStr (agent_id agent));
                                     ("timestamp", VStr (utcnow_isoformat w));
                                     ("stage", VStr "sequential_analysis");
                                     ("content", thinking_process problem)])]>
                     (files w))) by reflexivity.
  split.
  { eexists. rewrite F2. rewrite lookup_insert_ne by exact Hne.
    split; [apply lookup_insert_eq |]. repeat split. }
  split.
  { eexists. rewrite F2. split; [apply lookup_insert_eq |]. repeat split. }
  split.
  { rewrite F2. now rewrite !dom_insert_L. }
  split.
  { cbn. rewrite !length_app. cbn. lia. }
  split.
  { change (files (sequential_think _ problem
                     (ultrathink_collaborative
                        (sequential_think agent problem w).1.2 problem peers
                        (sequential_think agent problem w).2).2).2)
      with (<[thinking_file (agent_workspace agent) (agent_id agent)
                            "sequential_analysis"
              := Json (VDict [("agent_id", VStr (agent_id agent));
                              ("timestamp", VStr (utcnow_isoformat w));
                              ("stage", VStr "sequential_analysis");
                              ("content", thinking_process problem)])]>
              (files (ultrathink_collaborative
                        (sequential_think agent problem w).1.2 problem peers
                        (sequential_think agent problem w).2).2)).
    rewrite F2. apply dom_insert_lookup_L.
    rewrite lookup_insert_ne by exact Hne. rewrite lookup_insert_eq.
    eexists. reflexivity. }
  cbn. rewrite !length_app. cbn. lia.
Qed.

(** ** Collecting the logs *)

Lemma collect_lookup l w ids : forall (acc : gmap string (list value)) a,
  fold_left (fun acc aid => <[aid := sessions_of l aid w]> acc) ids acc !! a
  = if decide (a ∈ ids) then Some (sessions_of l a w) else acc !! a.
Proof.
  induction ids as [| x ids IH]; intros acc a; cbn [fold_left].
  - rewrite decide_False by apply not_elem_of_nil. reflexivity.
  - rewrite IH. destruct (decide (a ∈ ids)) as [Hin | Hnin].
    + rewrite decide_True by now right. reflexivity.
    + destruct (decide (a = x)) as [-> | Hne].
      * rewrite decide_True by left. apply lookup_insert_eq.
      * rewrite decide_False.
        -- now rewrite lookup_insert_ne by congruence.
        -- intros H. apply elem_of_cons in H as [? | ?]; contradiction.
Qed.

Lemma sessions_of_elem l a w v :
  v ∈ sessions_of l a w
  <-> exists path,
        glob_match (workspace_dir l +:+ "/thinking_sessions")
                   (a +:+ "_") ".json" path = true
        /\ files w !! path = Some (Json v).
Proof.
  unfold sessions_of. rewrite list_elem_of_omap. split.
  - intros ([path f] & Hin & Hf).
    apply list_elem_of_filter in Hin as [Hm Hin].
    apply elem_of_map_to_list in Hin. cbn in Hf, Hm.
    destruct f as [v' |]; [| discriminate]. injection Hf as ->.
    exists path. split; assumption.
  - intros (path & Hm & Hf). exists (path, Json v). split; [| reflexivity].
    apply list_elem_of_filter. split; [exact Hm |].
    now apply elem_of_map_to_list.
Qed.




(** ** Creating tasks and announcing agents *)

Lemma message_file_not_task_file ws a t st tid :
  message_file ws a t <> task_file ws st tid.
Proof.
  unfold message_file, task_file. intros E.
  apply (inj (String.app _)) in E. discriminate E.
Qed.

(** X9.  [create_thinking_task] always returns: the new id is
    "thinking_task_" followed by the draw; the task has the three
    mandatory phases, followed by the four collaborative phases exactly
    when ultrathink is required; it is held in [active_tasks] and written
    to the pending area as a pending task without result or completion
    time; and a [task_created] message of the orchestrator, addressed to
    all agents and correlated to the task id, is in the messages area.
    The agents are left alone. *)
Theorem create_thinking_task_spec o problem b w :
  let c := create_thinking_task o problem b w in
  let tid := "thinking_task_" +:+ uuid_supply w (uuid_drawn w) in
  c.1.1 = Ok tid
  /\ agents c.1.2 = agents o
  /\ (exists task,
        Dict.get tid (active_tasks c.1.2) = Some task
        /\ task_id task = tid
        /\ description task = problem
        /\ status task = "pending"
        /\ completed_at task = None
        /\ result task = None
        /\ sequential_steps task
           = (["phase_1_system_mapping"; "phase_2_evidence_verification";
               "phase_3_minimal_intervention"]
              ++ (if b then ["collaborative_perspective_gathering";
                             "assumption_challenging";
                             "solution_space_exploration";
                             "insight_synthesis"]
                  else []))%list
        /\ files c.2 !! task_file (workspace o) "pending" tid
           = Some (Json (asdict_task task)))
  /\ (exists m,
        files c.2 !! message_file (workspace o) "orchestrator" (now w)
        = Some (Json m)
        /\ field "message_type" m = Some (VStr "task_created")
        /\ field "target" m = Some (VStr "all_agents")
        /\ field "correlation_id" m = Some (VStr tid)).
Proof.
  cbv zeta. unfold create_thinking_task. cbn [uuid4_hex8].
  rewrite write_task_recognized by reflexivity.
  cbn [fst snd agents with_active_tasks active_tasks].
  split; [reflexivity |]. split; [reflexivity |]. split.
  - eexists. split; [apply dict_get_set_eq |].
    do 6 (split; [reflexivity |]).
    rewrite files_write_message.
    rewrite lookup_insert_ne by apply message_file_not_task_file.
    apply lookup_insert_eq.
  - eexists. split; [apply lookup_insert_eq |]. repeat split.
Qed.

Lemma initialize_swarm_files o w :
  let ws := workspace o in
  let id spec k := new_agent_id (uuid_supply w) spec (k + uuid_drawn w) in
  let msg spec k descr :=
    Json (asdict_message
            (mkAgentMessage (id spec k) "agent_initialized" "swarm"
               (utcnow_isoformat w)
               [("specialty", VStr spec); ("capabilities", VStr descr)]
               None true None)) in
  files (initialize_swarm o w).2
  = <[message_file ws (id "synthesizer" 4%nat) (now w)
      := msg "synthesizer" 4%nat "Integrates multi-agent insights and results"]>
    (<[message_file ws (id "explorer" 3%nat) (now w)
       := msg "explorer" 3%nat "Explores alternative perspectives and solutions"]>
    (<[message_file ws (id "validator" 2%nat) (now w)
       := msg "validator" 2%nat "Sequentially validates each thinking step"]>
    (<[message_file ws (id "analyst" 1%nat) (now w)
       := msg "analyst" 1%nat "Performs deep first-principles analysis"]>
    (<[message_file ws (id "coordinator" 0%nat) (now w)
       := msg "coordinator" 0%nat
              "Orchestrates swarm activities and task distribution"]>
       (files w))))).
Proof. reflexivity. Qed.

(** Two agents of different roles never share a message file. *)
Ltac other_role_file :=
  let E := fresh "E" in
  intros E; unfold message_file, new_agent_id in E;
  do 2 apply (inj (String.app _)) in E;
  cbv [String.append] in E; discriminate E.

(** X10.  [initialize_swarm] announces every agent it makes: after the
    call the messages area holds, for each of the five new ids, an
    [agent_initialized] message of that agent addressed to the swarm and
    naming its role; the five records do not overwrite one another. *)
Theorem initialize_swarm_announces_agents o w spec k :
  (spec, k) ∈ numbered_roles ->
  let aid := new_agent_id (uuid_supply w) spec (k + uuid_drawn w) in
  exists m,
    files (initialize_swarm o w).2 !! message_file (workspace o) aid (now w)
    = Some (Json m)
    /\ field "agent_id" m = Some (VStr aid)
    /\ field "message_type" m = Some (VStr "agent_initialized")
    /\ field "target" m = Some (VStr "swarm")
    /\ field "payload" m
       = Some (VDict [("specialty", VStr spec);
                      ("capabilities",
                       VStr (default "" (Dict.get spec agent_specialties)))]).
Proof.
  intros Hin. cbv zeta. rewrite initialize_swarm_files. cbv zeta.
  unfold numbered_roles in Hin.
  repeat (apply elem_of_cons in Hin as [E | Hin];
          [injection E as -> -> |]);
    try (apply elem_of_nil in Hin; contradiction);
    eexists;
    (split;
     [ repeat (first [ apply lookup_insert_eq
                     | rewrite lookup_insert_ne by other_role_file ])
     | repeat split ]).
Qed.

Lemma initialize_swarm_announces_agents_witness :
  exists m,
    files (initialize_swarm (new_SwarmOrchestrator 5) demo_world).2
      !! "/tmp/swarm_workspace/messages/validator_agent_a1b2c3d2_1700000000.json"
    = Some (Json m)
    /\ field "message_type" m = Some (VStr "agent_initialized").
Proof.
  destruct (initialize_swarm_announces_agents (new_SwarmOrchestrator 5) demo_world
              "validator" 2%nat) as (m & H1 & _ & H2 & _).
  - right. right. left.
  - exists m. split; [exact H1 | exact H2].
Defined.

(** ** The driver on any orchestrator *)

Lemma initialize_swarm_nonempty o w : agents (initialize_swarm o w).1.2 <> [].
Proof.
  rewrite initialize_swarm_agents. intros E.
  assert (H : is_Some (Dict.get
                (new_agent_id (uuid_supply w) "coordinator" (0 + uuid_drawn w))
                (Dict.update (new_agents (workspace o) (uuid_supply w)
                                         (uuid_drawn w)) (agents o)))).
  { apply dict_update_adds. rewrite keys_new_agents. left. }
  rewrite E in H. destruct H as [x H]. discriminate H.
Qed.

Lemma execute_on_empty o problem w :
  agents o = [] ->
  execute_sequential_swarm_thinking o problem w
  = execute_sequential_swarm_thinking (initialize_swarm o w).1.2 problem
                                      (initialize_swarm o w).2.
Proof.
  intros Hempty.
  pose proof (initialize_swarm_nonempty o w) as Hne.
  unfold execute_sequential_swarm_thinking at 2.
  destruct (agents (initialize_swarm o w).1.2) as [| a0 l0] eqn:E;
    [contradiction |].
  unfold execute_sequential_swarm_thinking. rewrite Hempty.
  destruct (initialize_swarm o w) as [[r o1] w1]. reflexivity.
Qed.

Lemma execute_from_agents o problem w :
  agents o <> [] ->
  let run := execute_sequential_swarm_thinking o problem w in
  let tid := "thinking_task_" +:+ uuid_supply w (uuid_drawn w) in
  exists res task,
    run.1.1 = Ok res
    /\ Dict.get tid (active_tasks run.1.2) = Some task
    /\ task_id task = tid
    /\ status task = "completed"
    /\ is_Some (completed_at task)
    /\ result task = Some res
    /\ files run.2 !! task_file (workspace o) "completed" tid
       = Some (Json (asdict_task task))
    /\ files run.2 !! task_file (workspace o) "pending" tid = None
    /\ length (active_tasks run.1.2)
       = length (Dict.set tid task (active_tasks o)).
Proof.
  intros Hne. cbv zeta.
  destruct (execute_with_agents o problem w Hne) as (Hres & Hags & Htask & Hw & _).
  cbv zeta in Hres, Hags, Htask, Hw.
  set (res := result_bundle _ _ _) in *.
  set (task0 := set_result (Some res) _) in *.
  set (w4 := (phase2 _ _ _ _ _).2) in *.
  destruct (move_task_completed (workspace o) task0 w4) as (Hst & Hca & Hrs & Hfile).
  cbv zeta in Hst, Hca, Hrs, Hfile.
  destruct (move_task_files (workspace o) task0 "completed" w4 eq_refl)
    as (_ & _ & Hid & Hf).
  exists res, (move_task (workspace o) task0 "completed" w4).1.2.
  split; [exact Hres |]. split; [exact Htask |].
  split; [exact Hid |]. split; [exact Hst |].
  split; [rewrite Hca; eexists; reflexivity |].
  split; [exact Hrs |].
  split; [rewrite Hw; exact Hfile |].
  split.
  - rewrite Hw, Hf.
    change (status task0) with "pending".
    change (task_id task0) with ("thinking_task_" +:+ uuid_supply w (uuid_drawn w)).
    rewrite lookup_insert_ne.
    + apply lookup_delete_eq.
    + intros E. apply task_file_status_inj in E. discriminate E.
  - unfold execute_sequential_swarm_thinking.
    destruct (agents o) as [| a0 l0] eqn:E0; [contradiction |].
    destruct (create_thinking_task_eq o problem true w) as (w' & Ec & _).
    cbv zeta in Ec. rewrite Ec.
    cbn [fst snd agents with_active_tasks].
    destruct (phase1 problem _ [] w') as [[ags3 ir] w3].
    destruct (phase2 problem ags3 ir [] w3) as [[[ags4 ur] calls] w5].
    cbn [fst snd agents with_agents active_tasks with_active_tasks workspace].
    rewrite dict_get_set_eq.
    destruct (move_task _ _ "completed" w5) as [[r t2] w6].
    assert (Hlen : forall (t1 t3 : Task) (d : list (string * Task)) k,
              length (Dict.set k t3 (Dict.set k t1 d)) = length (Dict.set k t1 d)).
    { intros t1 t3 d k. induction d as [| [k' v'] d IH]; cbn.
      - now rewrite String.eqb_refl.
      - destruct (String.eqb k' k) eqn:Ek; cbn; rewrite ?Ek; cbn;
          [rewrite String.eqb_refl; reflexivity | now rewrite IH]. }
    assert (Hlen2 : forall (t1 t3 : Task) (d : list (string * Task)) k,
              length (Dict.set k t1 d) = length (Dict.set k t3 d)).
    { intros t1 t3 d k. induction d as [| [k' v'] d IH]; cbn; [reflexivity |].
      destruct (String.eqb k' k); cbn; [reflexivity | now rewrite IH]. }
    destruct r; cbn [fst snd active_tasks with_active_tasks];
      rewrite Hlen; apply Hlen2.
Qed.

(** X11.  The driver never raises.  On any orchestrator, in any world, it
    returns a bundle; the task it made is held as completed, with a
    completion time and the bundle as its result; its record is in the
    completed area and no longer in the pending area (the task goes from
    pending straight to completed).  An orchestrator without agents makes
    its swarm first. *)
Theorem execute_never_raises o problem w :
  let run := execute_sequential_swarm_thinking o problem w in
  let drawn := match agents o with
               | [] => (5 + uuid_drawn w)%nat
               | _ :: _ => uuid_drawn w
               end in
  let tid := "thinking_task_" +:+ uuid_supply w drawn in
  agents run.1.2 <> []
  /\ exists res task,
       run.1.1 = Ok res
       /\ Dict.get tid (active_tasks run.1.2) = Some task
       /\ status task = "completed"
       /\ is_Some (completed_at task)
       /\ result task = Some res
       /\ files run.2 !! task_file (workspace o) "completed" tid
          = Some (Json (asdict_task task))
       /\ files run.2 !! task_file (workspace o) "pending" tid = None.
Proof.
  cbv zeta. destruct (agents o) as [| a0 l0] eqn:E.
  - rewrite (execute_on_empty o problem w E).
    pose proof (initialize_swarm_nonempty o w) as Hne.
    destruct (execute_from_agents (initialize_swarm o w).1.2 problem
                (initialize_swarm o w).2 Hne)
      as (res & task & H1 & H2 & _ & H3 & H4 & H5 & H6 & H7 & _).
    cbv zeta in H1, H2, H6, H7.
    destruct (execute_with_agents (initialize_swarm o w).1.2 problem
                (initialize_swarm o w).2 Hne) as (_ & Hags & _).
    cbv zeta in Hags. split.
    + rewrite Hags. intros Hnil.
      apply (f_equal roster) in Hnil. rewrite phase2_roster, phase1_roster in Hnil.
      destruct (agents (initialize_swarm o w).1.2); [contradiction | discriminate].
    + exists res, task. repeat split; assumption.
  - assert (Hne : agents o <> []) by (rewrite E; discriminate).
    destruct (execute_from_agents o problem w Hne)
      as (res & task & H1 & H2 & _ & H3 & H4 & H5 & H6 & H7 & _).
    cbv zeta in H1, H2, H6, H7.
    destruct (execute_with_agents o problem w Hne) as (_ & Hags & _).
    cbv zeta in Hags. split.
    + rewrite Hags. intros Hnil.
      apply (f_equal roster) in Hnil. rewrite phase2_roster, phase1_roster in Hnil.
      rewrite E in Hnil. discriminate.
    + exists res, task. repeat split; assumption.
Qed.

(** X12.  [active_tasks] is never pruned, and the status snapshot counts
    what it holds: after a run of the driver on a swarm with agents, the
    snapshot lists every agent as active and counts one task more than
    before when the id of the new task was not in use, although that task
    is completed. *)
Theorem swarm_status_counts_completed_task o problem w :
  agents o <> [] ->
  Dict.get ("thinking_task_" +:+ uuid_supply w (uuid_drawn w)) (active_tasks o)
  = None ->
  let run := execute_sequential_swarm_thinking o problem w in
  let st := get_swarm_status run.1.2 run.2 in
  Dict.get "active_tasks" st
  = Some (VInt (Z.of_nat (length (active_tasks o)) + 1))
  /\ (exists task,
        Dict.get ("thinking_task_" +:+ uuid_supply w (uuid_drawn w))
                 (active_tasks run.1.2) = Some task
        /\ status task = "completed")
  /\ (exists ags, Dict.get "agents" st = Some (VDict ags)
        /\ Dict.keys ags = Dict.keys (agents o)
        /\ forall a v, (a, v) ∈ ags -> field "status" v = Some (VStr "active")).
Proof.
  intros Hne Hfresh. cbv zeta.
  destruct (execute_from_agents o problem w Hne)
    as (res & task & _ & Ht & _ & Hst & _ & _ & _ & _ & Hlen).
  cbv zeta in Ht, Hlen.
  destruct (execute_with_agents o problem w Hne) as (_ & Hags & _).
  cbv zeta in Hags.
  split; [| split].
  - unfold get_swarm_status. cbn [Dict.get String.eqb Ascii.eqb Bool.eqb].
    rewrite Hlen. do 2 f_equal.
    assert (Hset : forall (d : list (string * Task)) k v,
              Dict.get k d = None -> length (Dict.set k v d) = S (length d)).
    { intros d k v. induction d as [| [k' v'] d IH]; cbn; [reflexivity |].
      destruct (String.eqb k' k); [discriminate |]. intros H. cbn. now rewrite IH. }
    rewrite Hset by exact Hfresh. lia.
  - exists task. split; assumption.
  - eexists. split; [reflexivity |]. split.
    + transitivity (map fst (roster (agents
                       (execute_sequential_swarm_thinking o problem w).1.2))).
      * unfold Dict.keys, roster. now rewrite !map_map.
      * rewrite Hags, phase2_roster, phase1_roster. apply keys_roster.
    + intros a v Hin. apply list_elem_of_In, in_map_iff in Hin as (e & E & _).
      injection E as _ <-. reflexivity.
Qed.

Lemma swarm_status_counts_completed_task_witness :
  let o := (initialize_swarm (new_SwarmOrchestrator 5) demo_world).1.2 in
  let w := (initialize_swarm (new_SwarmOrchestrator 5) demo_world).2 in
  let run := execute_sequential_swarm_thinking o "P1" w in
  Dict.get "active_tasks" (get_swarm_status run.1.2 run.2) = Some (VInt 1).
Proof.
  cbv zeta.
  destruct (swarm_status_counts_completed_task
              (initialize_swarm (new_SwarmOrchestrator 5) demo_world).1.2 "P1"
              (initialize_swarm (new_SwarmOrchestrator 5) demo_world).2)
    as (H & _).
  - apply initialize_swarm_nonempty.
  - reflexivity.
  - exact H.
Defined.

(** ** Launching *)

Lemma launch_agent_ok l atype task w run_time td :
  configured l atype = true ->
  popen_supply w (spawned w) = Some (run_time, td) ->
  let aid := atype +:+ "_" +:+ pretty (now w) in
  let info := mkProcessInfo (spawned w) atype (utcnow_isoformat w) task in
  exists w1,
    launch_agent l atype task w
    = (Ok aid, with_active_processes (<[aid := info]> (active_processes l)) l, w1)
    /\ now w1 = now w
    /\ spawned w1 = S (spawned w)
    /\ popen_supply w1 = popen_supply w
    /\ processes w1 = <[spawned w := mkProc (now w + run_time) td]> (processes w)
    /\ files w1 !! activity_file l aid
       = Some (Json (VDict [("agent_id", VStr aid);
                            ("agent_type", VStr atype);
                            ("timestamp", VStr (utcnow_isoformat w));
                            ("activity", VStr "launched");
                            ("details", VDict [("task", VStr task)])])).
Proof.
  intros Hc Hp. cbv zeta. unfold configured in Hc. unfold launch_agent, Popen.
  destruct (Dict.get atype (agent_configs l)); [| discriminate].
  rewrite Hp. eexists. split; [reflexivity |].
  repeat split. apply lookup_insert_eq.
Qed.

Lemma configured_builtin l atype :
  agent_configs l = _load_agent_configs ->
  configured l atype = true <-> atype ∈ default_agent_types.
Proof.
  unfold configured. intros ->. unfold _load_agent_configs, default_agent_types.
  cbn [Dict.get]. rewrite !elem_of_cons, elem_of_nil.
  repeat match goal with
         | |- context [String.eqb ?a atype] =>
             destruct (String.eqb_spec a atype) as [<- | ?]
         end;
    split; intros H; try reflexivity; try discriminate; try tauto;
    intuition congruence.
Qed.

(** X13.  A launch that fails leaves nothing behind.  For a type without a
    configuration [launch_agent] raises [ValueError] before anything is
    started; when the executable cannot be started it raises
    [RuntimeError]; in both cases the launcher and the world are as
    before: no handle, no process, no activity record.  With the built-in
    configurations the unknown types are exactly those outside the five
    roles. *)
Theorem launch_agent_failure_leaves_no_trace l atype task w :
  (configured l atype = false ->
   exists msg, launch_agent l atype task w = (Raise (ValueError msg), l, w))
  /\ (configured l atype = true -> popen_supply w (spawned w) = None ->
      exists msg, launch_agent l atype task w = (Raise (RuntimeError msg), l, w))
  /\ (agent_configs l = _load_agent_configs ->
      (configured l atype = true <-> atype ∈ default_agent_types)).
Proof.
  split; [| split].
  - unfold configured, launch_agent, Popen.
    destruct (Dict.get atype (agent_configs l)); [discriminate |].
    intros _. eexists. reflexivity.
  - unfold configured, launch_agent, Popen.
    destruct (Dict.get atype (agent_configs l)); [| discriminate].
    intros _ ->. eexists. reflexivity.
  - apply configured_builtin.
Qed.

Lemma launch_agent_failure_leaves_no_trace_witness :
  exists msg,
    launch_agent (new_AgentLauncher "/tmp/swarm_workspace") "planner" "P1" demo_world
    = (Raise (ValueError msg), new_AgentLauncher "/tmp/swarm_workspace", demo_world).
Proof.
  apply (launch_agent_failure_leaves_no_trace
           (new_AgentLauncher "/tmp/swarm_workspace") "planner" "P1" demo_world).
  reflexivity.
Defined.

Lemma stop_process_elsewhere pid pid' w :
  pid' <> pid ->
  processes (stop_process pid w) !! pid' = processes w !! pid'.
Proof.
  intros Hne. unfold stop_process. destruct (alive pid w); [| reflexivity].
  cbv zeta.
  assert (Ht : processes (terminate pid w) !! pid' = processes w !! pid').
  { unfold terminate. destruct (processes w !! pid) as [p |]; [| reflexivity].
    destruct (now w <? exits_at p); [| reflexivity].
    destruct (term_delay p); [| reflexivity].
    cbn. now rewrite lookup_insert_ne by congruence. }
  assert (Hw : processes (wait pid 10 (terminate pid w)).2
               = processes (terminate pid w)).
  { unfold wait. destruct (processes (terminate pid w) !! pid) as [p |];
      [| reflexivity].
    destruct (exits_at p <=? now (terminate pid w) + 10); reflexivity. }
  destruct (wait pid 10 (terminate pid w)).1.
  - now rewrite Hw.
  - unfold kill. destruct (processes _ !! pid) as [p |].
    + cbn. rewrite lookup_insert_ne by congruence. now rewrite Hw.
    + now rewrite Hw.
Qed.

Lemma stop_process_clock pid w :
  now w <= now (stop_process pid w) <= now w + 10.
Proof.
  unfold stop_process. destruct (alive pid w) eqn:A; [| lia].
  cbv zeta.
  assert (Ht : now (terminate pid w) = now w).
  { unfold terminate. destruct (processes w !! pid) as [p |]; [| reflexivity].
    destruct (now w <? exits_at p); [| reflexivity].
    destruct (term_delay p); reflexivity. }
  assert (Hw : now w <= now (wait pid 10 (terminate pid w)).2 <= now w + 10).
  { unfold wait. rewrite Ht.
    destruct (processes (terminate pid w) !! pid) as [p |]; [| cbn; lia].
    destruct (exits_at p <=? now w + 10) eqn:L; cbn; [| lia].
    apply Z.leb_le in L. lia. }
  destruct (wait pid 10 (terminate pid w)).1; [exact Hw |].
  unfold kill. destruct (processes _ !! pid); cbn; exact Hw.
Qed.

(** X14.  Two launches of one type within the same second get the same
    id: the second handle replaces the first, so the launcher holds one
    handle for two processes, and a cleanup of that id stops the second
    process only.  The first process, when it runs for more than the ten
    seconds that the cleanup may take, is still running afterwards. *)
Theorem launch_twice_same_second_orphans_first l atype task1 task2 w rt1 td1 rt2 td2 :
  configured l atype = true ->
  popen_supply w (spawned w) = Some (rt1, td1) ->
  popen_supply w (S (spawned w)) = Some (rt2, td2) ->
  10 < rt1 ->
  let aid := atype +:+ "_" +:+ pretty (now w) in
  let s1 := launch_agent l atype task1 w in
  let s2 := launch_agent s1.1.2 atype task2 s1.2 in
  let c := cleanup_swarm s2.1.2 [aid] s2.2 in
  s1.1.1 = Ok aid
  /\ s2.1.1 = Ok aid
  /\ active_processes s2.1.2
     = <[aid := mkProcessInfo (S (spawned w)) atype (utcnow_isoformat w) task2]>
         (active_processes l)
  /\ active_processes c.1 !! aid = None
  /\ alive (S (spawned w)) c.2 = false
  /\ alive (spawned w) c.2 = true.
Proof.
  intros Hc Hp1 Hp2 Hlong. cbv zeta.
  destruct (launch_agent_ok l atype task1 w rt1 td1 Hc Hp1)
    as (w1 & E1 & Hn1 & Hs1 & Hps1 & Hpr1 & _).
  cbv zeta in E1. rewrite E1. cbn [fst snd].
  set (l1 := with_active_processes _ l).
  assert (Hc1 : configured l1 atype = true) by exact Hc.
  assert (Hp2' : popen_supply w1 (spawned w1) = Some (rt2, td2))
    by now rewrite Hps1, Hs1.
  destruct (launch_agent_ok l1 atype task2 w1 rt2 td2 Hc1 Hp2')
    as (w2 & E2 & Hn2 & Hs2 & Hps2 & Hpr2 & _).
  cbv zeta in E2. rewrite Hn1, Hs1 in E2.
  unfold utcnow_isoformat in E2 |- *. rewrite Hn1 in E2. rewrite E2.
  cbn [fst snd].
  set (aid := atype +:+ "_" +:+ pretty (now w)).
  set (info2 := mkProcessInfo (S (spawned w)) atype (pretty (now w)) task2).
  split; [reflexivity |]. split; [reflexivity |].
  split; [unfold l1; cbn; apply insert_insert_eq |].
  set (l2 := with_active_processes _ l1).
  assert (Hh : active_processes l2 !! aid = Some info2) by apply lookup_insert_eq.
  assert (Ec : cleanup_swarm l2 [aid] w2
               = (with_active_processes (delete aid (active_processes l2)) l2,
                  stop_process (S (spawned w)) w2)).
  { unfold cleanup_swarm. cbn [fold_left].
    now rewrite (cleanup_agent_tracked _ _ _ _ Hh). }
  rewrite Ec. cbn [fst snd].
  split; [apply lookup_delete_eq |].
  split; [apply stop_process_stops |].
  unfold alive. rewrite stop_process_elsewhere by lia.
  rewrite Hpr2, Hs1, lookup_insert_ne by lia.
  rewrite Hpr1, lookup_insert_eq. cbn [exits_at].
  pose proof (stop_process_clock (S (spawned w)) w2). apply Z.ltb_lt. lia.
Qed.

Lemma launch_twice_same_second_orphans_first_witness :
  let l := new_AgentLauncher "/tmp/swarm_workspace" in
  let s1 := launch_agent l "analyst" "P1" demo_world in
  let s2 := launch_agent s1.1.2 "analyst" "P2" s1.2 in
  let c := cleanup_swarm s2.1.2 ["analyst_1700000000"] s2.2 in
  s1.1.1 = Ok "analyst_1700000000"
  /\ s2.1.1 = Ok "analyst_1700000000"
  /\ active_processes c.1 !! "analyst_1700000000" = None
  /\ alive 1 c.2 = false
  /\ alive 0 c.2 = true.
Proof.
  cbv zeta.
  destruct (launch_twice_same_second_orphans_first
              (new_AgentLauncher "/tmp/swarm_workspace") "analyst" "P1" "P2"
              demo_world 100 (Some 2) 3 None)
    as (H1 & H2 & _ & H4 & H5 & H6); try reflexivity; try lia.
  repeat split; assumption.
Defined.

(** ** Launching a swarm *)

Lemma launch_id_inj a b (s s' : Z) :
  a ∈ default_agent_types -> b ∈ default_agent_types ->
  a +:+ "_" +:+ pretty s = b +:+ "_" +:+ pretty s' ->
  a = b /\ s = s'.
Proof.
  unfold default_agent_types. intros Ha Hb E.
  repeat (apply elem_of_cons in Ha as [-> | Ha]);
    try (apply elem_of_nil in Ha; contradiction);
    repeat (apply elem_of_cons in Hb as [-> | Hb]);
    try (apply elem_of_nil in Hb; contradiction);
    try (cbv [String.append] in E; discriminate E);
    (split; [reflexivity |]);
    do 2 apply (inj (String.app _)) in E;
    now apply (inj pretty) in E.
Qed.

Lemma launch_agent_configs l atype task w :
  agent_configs (launch_agent l atype task w).1.2 = agent_configs l.
Proof.
  unfold launch_agent, Popen.
  destruct (Dict.get atype (agent_configs l)); [| reflexivity].
  now destruct (popen_supply w (spawned w)) as [[rt td] |].
Qed.

Lemma launch_agent_keeps_handles l atype task w aid :
  is_Some (active_processes l !! aid) ->
  is_Some (active_processes (launch_agent l atype task w).1.2 !! aid).
Proof.
  intros H. unfold launch_agent, Popen.
  destruct (Dict.get atype (agent_configs l)); [| exact H].
  destruct (popen_supply w (spawned w)) as [[rt td] |]; [| exact H].
  cbn. rewrite lookup_insert. destruct (decide _); [eexists; reflexivity | exact H].
Qed.

Lemma launch_agent_unconfigured l atype task w :
  configured l atype = false ->
  exists e, (launch_agent l atype task w).1.1 = Raise e.
Proof.
  unfold configured, launch_agent.
  destruct (Dict.get atype (agent_configs l)); [discriminate |].
  intros _. eexists. reflexivity.
Qed.

Lemma launch_others_cons l task atype rest launched w :
  launch_others l task (atype :: rest) launched w
  = if negb (String.eqb atype "coordinator") then
      match (launch_agent l atype task w).1.1 with
      | Raise e => (Raise e, (launch_agent l atype task w).1.2,
                    (launch_agent l atype task w).2)
      | Ok aid =>
          launch_others (launch_agent l atype task w).1.2 task rest
                        (launched ++ [aid])%list
                        (sleep 1 (launch_agent l atype task w).2)
      end
    else launch_others l task rest launched w.
Proof.
  cbn [launch_others]. destruct (negb _); [| reflexivity].
  now destruct (launch_agent l atype task w) as [[[aid | e] l1] w1].
Qed.

Lemma launch_others_keeps_handles task types : forall l launched w aid,
  is_Some (active_processes l !! aid) ->
  is_Some (active_processes (launch_others l task types launched w).1.2 !! aid).
Proof.
  induction types as [| a rest IH]; intros l launched w aid H; [exact H |].
  rewrite launch_others_cons. destruct (negb _); [| now apply IH].
  pose proof (launch_agent_keeps_handles l a task w aid H) as H1.
  destruct (launch_agent l a task w).1.1 as [id | e]; [now apply IH | exact H1].
Qed.

Lemma launch_others_unconfigured task bad types : forall l launched w,
  bad ∈ types -> bad <> "coordinator" -> configured l bad = false ->
  exists e, (launch_others l task types launched w).1.1 = Raise e.
Proof.
  induction types as [| a rest IH]; intros l launched w Hin Hnc Hbad.
  - apply elem_of_nil in Hin. contradiction.
  - rewrite launch_others_cons.
    destruct (String.eqb_spec a "coordinator") as [-> | Hne]; cbn [negb].
    + apply IH; [| exact Hnc | exact Hbad].
      apply elem_of_cons in Hin as [-> | Hin]; [contradiction | exact Hin].
    + destruct (launch_agent l a task w).1.1 as [id | e] eqn:E; [| eauto].
      apply elem_of_cons in Hin as [-> | Hin].
      * destruct (launch_agent_unconfigured l a task w Hbad) as [e He].
        congruence.
      * apply IH; [exact Hin | exact Hnc |].
        unfold configured in *. now rewrite launch_agent_configs.
Qed.

Lemma launch_others_ok task types : forall l launched w,
  (forall a, a ∈ types -> configured l a = true) ->
  (forall k, (k < length (expected_ids types (now w)))%nat ->
     is_Some (popen_supply w (spawned w + k)%nat)) ->
  let n := length (expected_ids types (now w)) in
  exists l' w',
    launch_others l task types launched w
    = (Ok (launched ++ expected_ids types (now w))%list, l', w')
    /\ now w' = now w + Z.of_nat n
    /\ spawned w' = (spawned w + n)%nat
    /\ (forall id, id ∈ expected_ids types (now w) ->
          is_Some (active_processes l' !! id))
    /\ (forall id, is_Some (active_processes l !! id) ->
          is_Some (active_processes l' !! id)).
Proof.
  induction types as [| a rest IH]; intros l launched w Hcfg Hpop; cbv zeta.
  - exists l, w. cbn. rewrite app_nil_r. repeat split; try lia; try tauto.
    intros id H. apply elem_of_nil in H. contradiction.
  - rewrite launch_others_cons. cbn [expected_ids] in *.
    destruct (negb (String.eqb a "coordinator")) eqn:C.
    + cbn [length] in Hpop.
      destruct (Hpop 0%nat ltac:(lia)) as [[rt td] Hp0].
      rewrite Nat.add_0_r in Hp0.
      destruct (launch_agent_ok l a task w rt td (Hcfg a ltac:(left)) Hp0)
        as (w1 & E & Hn & Hs & Hps & _).
      cbv zeta in E. rewrite E. cbn [fst snd].
      set (aid := a +:+ "_" +:+ pretty (now w)).
      set (l1 := with_active_processes _ l).
      assert (Hnow1 : now (sleep 1 w1) = now w + 1) by (cbn; lia).
      destruct (IH l1 (launched ++ [aid])%list (sleep 1 w1))
        as (l' & w' & E' & Hn' & Hs' & Hnew & Hold).
      * intros a' Ha'. apply (Hcfg a'). now right.
      * intros k Hk. rewrite Hnow1 in Hk.
        change (popen_supply (sleep 1 w1)) with (popen_supply w1).
        change (spawned (sleep 1 w1)) with (spawned w1).
        rewrite Hps, Hs. replace (S (spawned w) + k)%nat
          with (spawned w + S k)%nat by lia.
        apply Hpop. lia.
      * rewrite Hnow1 in *. exists l', w'.
        rewrite E', <- app_assoc. cbn [app length].
        split; [reflexivity |]. split; [lia |].
        split; [change (spawned (sleep 1 w1)) with (spawned w1) in Hs'; lia |].
        split.
        -- intros id Hid. apply elem_of_cons in Hid as [-> | Hid].
           ++ apply Hold. unfold l1. cbn. rewrite lookup_insert_eq.
              eexists. reflexivity.
           ++ now apply Hnew.
        -- intros id Hid. apply Hold. unfold l1. cbn. rewrite lookup_insert.
           destruct (decide _); [eexists; reflexivity | exact Hid].
    + destruct (IH l launched w) as (l' & w' & E' & Hn' & Hs' & Hnew & Hold).
      * intros a' Ha'. apply (Hcfg a'). now right.
      * exact Hpop.
      * exists l', w'. repeat split; assumption.
Qed.

Lemma expected_ids_spec types : forall t id,
  id ∈ expected_ids types t ->
  exists a s, id = a +:+ "_" +:+ pretty s /\ a ∈ types /\ a <> "coordinator"
              /\ t <= s.
Proof.
  induction types as [| a rest IH]; intros t id Hin; cbn in Hin.
  - apply elem_of_nil in Hin. contradiction.
  - destruct (String.eqb_spec a "coordinator") as [-> | Hne]; cbn [negb] in Hin.
    + destruct (IH t id Hin) as (b & s & E & Hb & Hnc & Hs).
      exists b, s. repeat split; try assumption. now right.
    + apply elem_of_cons in Hin as [-> | Hin].
      * exists a, t. repeat split; try assumption; [left | lia].
      * destruct (IH (t + 1) id Hin) as (b & s & E & Hb & Hnc & Hs).
        exists b, s. repeat split; try assumption; [now right | lia].
Qed.

Lemma expected_ids_length types : forall t,
  S (length (expected_ids types t)) = launches types.
Proof.
  unfold launches. induction types as [| a rest IH]; intros t; [reflexivity |].
  cbn. destruct (negb (String.eqb a "coordinator")); cbn.
  - f_equal. apply IH.
  - apply IH.
Qed.

Lemma NoDup_expected_ids types : forall t,
  (forall a, a ∈ types -> a ∈ default_agent_types) ->
  NoDup (expected_ids types t).
Proof.
  induction types as [| a rest IH]; intros t Hroles; cbn; [constructor |].
  assert (Hrest : forall b, b ∈ rest -> b ∈ default_agent_types)
    by (intros b Hb; apply Hroles; now right).
  destruct (negb (String.eqb a "coordinator")); [| now apply IH].
  apply NoDup_cons. split; [| now apply IH].
  intros Hin. destruct (expected_ids_spec rest (t + 1) _ Hin)
    as (b & s & E & Hb & _ & Hs).
  apply launch_id_inj in E as [_ E]; [lia | apply Hroles; left | now apply Hrest].
Qed.



(** X16.  A swarm launch that fails does not take back what it started.
    Whatever the outcome, the handles held before are still held, and so is
    the handle of the coordinator once its launch has succeeded; and the
    launch does fail whenever the list names a type, other than the
    coordinator, that has no configuration. *)
Theorem launch_swarm_failure_keeps_launched l task agent_types w :
  let types := default default_agent_types agent_types in
  let run := launch_swarm l task agent_types w in
  (forall id, is_Some (active_processes l !! id) ->
     is_Some (active_processes run.1.2 !! id))
  /\ (configured l "coordinator" = true ->
      is_Some (popen_supply w (spawned w)) ->
      is_Some (active_processes run.1.2 !! ("coordinator_" +:+ pretty (now w))))
  /\ (forall bad, bad ∈ types -> bad <> "coordinator" ->
        configured l bad = false ->
        exists e, run.1.1 = Raise e).
Proof.
  cbv zeta. unfold launch_swarm.
  set (types := default default_agent_types agent_types).
  split; [| split].
  - intros id H.
    pose proof (launch_agent_keeps_handles l "coordinator" task w id H) as H1.
    destruct (launch_agent l "coordinator" task w) as [[[cid | e] l1] w1];
      [| exact H1].
    now apply launch_others_keeps_handles.
  - intros Hc [[rt td] Hp].
    destruct (launch_agent_ok l "coordinator" task w rt td Hc Hp)
      as (w1 & E & _).
    cbv zeta in E. rewrite E.
    apply launch_others_keeps_handles. cbn. rewrite lookup_insert_eq.
    eexists. reflexivity.
  - intros bad Hin Hnc Hbad.
    pose proof (launch_agent_configs l "coordinator" task w) as Hcfg.
    destruct (launch_agent l "coordinator" task w) as [[[cid | e] l1] w1];
      [| eexists; reflexivity].
    apply (launch_others_unconfigured task bad); [exact Hin | exact Hnc |].
    unfold configured in *. cbn [fst snd] in Hcfg. now rewrite Hcfg.
Qed.

Lemma launch_swarm_failure_keeps_launched_witness :
  let run := launch_swarm (new_AgentLauncher "/tmp/swarm_workspace") "P1"
                          (Some ["analyst"; "planner"]) demo_world in
  (exists e, run.1.1 = Raise e)
  /\ is_Some (active_processes run.1.2 !! "coordinator_1700000000").
Proof.
  cbv zeta.
  destruct (launch_swarm_failure_keeps_launched
              (new_AgentLauncher "/tmp/swarm_workspace") "P1"
              (Some ["analyst"; "planner"]) demo_world) as (_ & Hc & Hbad).
  split.
  - apply (Hbad "planner"); [right; left | discriminate | reflexivity].
  - apply Hc; [reflexivity | eexists; reflexivity].
Defined.

(** ** More on monitoring *)

Lemma monitor_fuel_positive timeout : 0 < timeout -> exists n, monitor_fuel timeout = S n.
Proof.
  intros H. unfold monitor_fuel.
  pose proof (Z.div_pos timeout 5 ltac:(lia) ltac:(lia)).
  exists (Z.to_nat (timeout / 5)). lia.
Qed.

Lemma poll_agents_untracked l w ids : forall ac st res,
  (forall a, a ∈ ids -> active_processes l !! a = None) ->
  poll_agents l ids ac st res w = Ok (ac, st, res).
Proof.
  induction ids as [| a ids IH]; intros ac st res H; [reflexivity |].
  cbn [poll_agents]. rewrite (H a) by left.
  apply IH. intros b Hb. apply H. now right.
Qed.



Lemma poll_agents_unreadable l w B : forall ids ac st res,
  B ∈ ids -> tracked_over l w B = true ->
  files w !! result_file l B = Some Garbage ->
  res !! B = None ->
  exists e, poll_agents l ids ac st res w = Raise e.
Proof.
  intros ids. induction ids as [| a ids IH]; intros ac st res Hin Hover Hg Hres.
  - apply elem_of_nil in Hin. contradiction.
  - cbn [poll_agents]. unfold tracked_over in Hover.
    destruct (decide (a = B)) as [-> | Hne].
    + destruct (active_processes l !! B) as [info |]; [| discriminate].
      apply negb_true_iff in Hover. rewrite Hover.
      unfold path_exists. rewrite Hg, Hres.
      rewrite bool_decide_eq_true_2 by (eexists; reflexivity).
      rewrite bool_decide_eq_false_2 by (intros [? ?]; discriminate).
      cbn. eexists. reflexivity.
    + assert (Hin' : B ∈ ids)
        by (apply elem_of_cons in Hin as [-> | Hin]; [contradiction | exact Hin]).
      assert (Hover' : tracked_over l w B = true) by exact Hover.
      destruct (active_processes l !! a) as [info |]; [| now apply IH].
      destruct (alive (process info) w); [now apply IH |].
      destruct (path_exists (result_file l a) w
                && negb (bool_decide (is_Some (res !! a)))); [| now apply IH].
      destruct (files w !! result_file l a) as [[v |] |];
        try (eexists; reflexivity).
      apply IH; try assumption. now rewrite lookup_insert_ne.
Qed.

(** X18.  An unreadable result file is fatal to monitoring: with a
    positive timeout, if some agent of the list is over and its result
    file cannot be decoded, [monitor_swarm] raises in its first pass, and
    nothing of what was collected is returned. *)
Theorem monitor_swarm_unreadable_result_raises l ids timeout w B :
  0 < timeout ->
  B ∈ ids ->
  tracked_over l w B = true ->
  files w !! result_file l B = Some Garbage ->
  exists e, monitor_swarm l ids timeout w = Some (Raise e, w).
Proof.
  intros Hpos Hin Hover Hg.
  destruct (poll_agents_unreadable l w B ids true ∅ ∅ Hin Hover Hg
              (lookup_empty _)) as [e He].
  destruct (monitor_fuel_positive timeout Hpos) as [n Hn].
  unfold monitor_swarm. rewrite Hn, monitor_loop_unfold.
  replace (now w - now w <? timeout) with true by (symmetry; apply Z.ltb_lt; lia).
  rewrite He. exists e. reflexivity.
Qed.

Lemma monitor_swarm_unreadable_result_raises_witness :
  let l := demo_launched.1 in
  let w := with_files (<[result_file l "validator_1700000000" := Garbage]>
                         (files demo_launched.2))
                      (sleep 5 demo_launched.2) in
  exists e,
    monitor_swarm l ["analyst_1700000000"; "validator_1700000000"] 300 w
    = Some (Raise e, w).
Proof.
  cbv zeta.
  apply (monitor_swarm_unreadable_result_raises demo_launched.1
           ["analyst_1700000000"; "validator_1700000000"] 300 _
           "validator_1700000000").
  - lia.
  - right. left.
  - vm_compute. reflexivity.
  - vm_compute. reflexivity.
Defined.


Lemma monitor_loop_bounded l ids timeout start : forall fuel st res x,
  start + timeout - now x <= 5 * Z.of_nat fuel ->
  start <= now x ->
  now x - start < Z.max timeout 0 + 5 ->
  exists o w',
    monitor_loop fuel l ids timeout start st res x = Some (o, w')
    /\ files w' = files x
    /\ processes w' = processes x
    /\ now x <= now w'
    /\ now w' - start < Z.max timeout 0 + 5.
Proof.
  induction fuel as [| fuel IH]; intros st res x Hfuel Hstart Hup;
    rewrite monitor_loop_unfold;
    destruct (now x - start <? timeout) eqn:C;
    try (eexists _, x; repeat split; [lia | assumption]).
  - apply Z.ltb_lt in C. lia.
  - apply Z.ltb_lt in C.
    destruct (poll_agents l ids true st res x) as [[[ac st1] res1] | e];
      [| eexists _, x; repeat split; [lia | assumption]].
    destruct ac; [eexists _, x; repeat split; [lia | assumption] |].
    destruct (IH st1 res1 (sleep 5 x)) as (o & w' & E & Hf & Hp & Hn & Hb);
      cbn [now sleep with_now]; try lia.
    exists o, w'. split; [exact E |].
    cbn [now sleep with_now files processes] in *. repeat split; try assumption; lia.
Qed.

(** X20.  [monitor_swarm] always comes back, and in bounded time: for any
    launcher, ids and timeout it returns or raises after less than the
    timeout (or 0, for a negative one) plus one polling interval of 5
    seconds, and it writes nothing: files and processes are as before. *)
Theorem monitor_swarm_bounded l ids timeout w :
  exists o w',
    monitor_swarm l ids timeout w = Some (o, w')
    /\ files w' = files w
    /\ processes w' = processes w
    /\ 0 <= now w' - now w < Z.max timeout 0 + 5.
Proof.
  destruct (monitor_loop_bounded l ids timeout (now w) (monitor_fuel timeout)
              ∅ ∅ w) as (o & w' & E & Hf & Hp & Hn & Hb).
  - pose proof (monitor_fuel_enough timeout). lia.
  - lia.
  - lia.
  - unfold monitor_swarm. rewrite E.
    destruct o as [[st res] | e]; eexists _, w';
      (split; [reflexivity |]); repeat split; try assumption; lia.
Qed.

(** ** The capability table *)

Lemma get_capabilities_lookup (cfgs : list (string * AgentConfig)) atype :
  Dict.get atype
    (map (fun tc =>
            (tc.1, VDict [("description", VStr (cfg_description tc.2));
                          ("tools", VList (map VStr (tools tc.2)));
                          ("thinking_style", VStr (thinking_style tc.2))]))
         cfgs)
  = option_map (fun c => VDict [("description", VStr (cfg_description c));
                                ("tools", VList (map VStr (tools c)));
                                ("thinking_style", VStr (thinking_style c))])
               (Dict.get atype cfgs).
Proof.
  induction cfgs as [| [k c] cfgs IH]; [reflexivity |].
  cbn [map Dict.get fst snd].
  destruct (String.eqb k atype); [reflexivity | exact IH].
Qed.

(** X21.  The capability table and [launch_agent] agree on which agent
    types exist: [launch_agent] rejects a type as unknown exactly when
    [get_agent_capabilities] has no entry for it, and an entry of the table
    carries the description, the tools and the thinking style of the
    configuration under which the type is launched. *)
Theorem capabilities_list_launchable_types l atype task w :
  ((launch_agent l atype task w).1.1
     = Raise (ValueError ("Unknown agent type: " +:+ atype))
   <-> Dict.get atype (get_agent_capabilities l) = None)
  /\ Dict.get atype (get_agent_capabilities l)
     = option_map
         (fun c => VDict [("description", VStr (cfg_description c));
                          ("tools", VList (map VStr (tools c)));
                          ("thinking_style", VStr (thinking_style c))])
         (Dict.get atype (agent_configs l)).
Proof.
  unfold get_agent_capabilities. rewrite get_capabilities_lookup.
  unfold launch_agent. split; [| reflexivity].
  destruct (Dict.get atype (agent_configs l)) as [c |]; cbn [option_map].
  - split; [| discriminate].
    destruct (Popen w) as [[pid |] w1]; cbn; discriminate.
  - split; reflexivity.
Qed.
